(** * ProctorIQ front end: the upload workflow and the API client

    A shallow embedding of [frontend/src/services/api.ts] and of the
    handlers of [frontend/src/pages/UploadPage.tsx].

    - JavaScript strings are sequences of UTF-16 code units ([list N]).
    - [number] fields that carry counts are integers ([Z]); marks and
      percentages are exact rationals ([Q]), an idealisation of doubles.
    - An [async] function is a finite tree of suspension points ([prog]):
      every [await] of an axios call is a node whose continuation
      receives the settled promise.
    - React state is a record; the setters are record updates threaded
      through the handler, and a thrown exception keeps the state written
      so far. *)

From Stdlib Require Import List Bool ZArith NArith QArith String Ascii Lia Lqa.
Import ListNotations.

Set Implicit Arguments.

(** ** JavaScript strings *)

Module JsString.

Definition t : Type := list N.

Definition eqb (a b : t) : bool :=
  if list_eq_dec N.eq_dec a b then true else false.

(** ECMAScript [WhiteSpace] and [LineTerminator] code points, the ones
    [String.prototype.trim] strips. *)
Definition isWhiteSpace (c : N) : bool :=
  ((c =? 0x09) || (c =? 0x0A) || (c =? 0x0B) || (c =? 0x0C) || (c =? 0x0D)
   || (c =? 0x20) || (c =? 0xA0) || (c =? 0x1680)
   || ((0x2000 <=? c) && (c <=? 0x200A))
   || (c =? 0x2028) || (c =? 0x2029) || (c =? 0x202F) || (c =? 0x205F)
   || (c =? 0x3000) || (c =? 0xFEFF))%N.

Fixpoint trimStart (s : t) : t :=
  match s with
  | [] => []
  | c :: r => if isWhiteSpace c then trimStart r else s
  end.

Definition trimEnd (s : t) : t := rev (trimStart (rev s)).

Definition trim (s : t) : t := trimEnd (trimStart s).

(** [ToBoolean] on a string: only the empty string is falsy. *)
Definition truthy (s : t) : bool :=
  match s with [] => false | _ :: _ => true end.

Fixpoint startsWith (s p : t) : bool :=
  match p, s with
  | [], _ => true
  | _ :: _, [] => false
  | a :: p', b :: s' => (a =? b)%N && startsWith s' p'
  end.

End JsString.

Definition jsstring : Type := JsString.t.

(** A string literal of the source. *)
Definition lit (s : string) : jsstring :=
  map N_of_ascii (list_ascii_of_string s).

(** [a || b] where [a] may be [undefined]: the first truthy operand. *)
Definition js_or (a b : option jsstring) : option jsstring :=
  match a with
  | Some s => if JsString.truthy s then Some s else b
  | None => b
  end.

(** [a || 'literal']: the right operand is a string. *)
Definition js_or_lit (a : option jsstring) (b : jsstring) : jsstring :=
  match a with
  | Some s => if JsString.truthy s then s else b
  | None => b
  end.

(** ** The data model of api.ts *)

(** [any]: a payload the client passes through without looking inside. *)
Inductive any : Type := Opaque (encoded : jsstring).

Unset Elimination Schemes.

(** A value read from a JSON body. *)
Inductive json : Type :=
| JNull
| JBool (b : bool)
| JNumber (n : Q)
| JString (s : jsstring)
| JArray (items : list json)
| JObject (members : list (jsstring * json)).

Set Elimination Schemes.

(** [ToBoolean]: [null], [false], [0] and the empty string are falsy,
    every array and every object is truthy. *)
Definition ToBoolean (v : json) : bool :=
  match v with
  | JNull => false
  | JBool b => b
  | JNumber n => negb (Qeq_bool n 0)
  | JString s => JsString.truthy s
  | JArray _ => true
  | JObject _ => true
  end.

(** What React accepts as a child: strings and numbers are rendered,
    [null] and booleans are skipped, an array is rendered element by
    element, and a plain object makes the render throw. *)
Fixpoint isReactChild (v : json) : bool :=
  match v with
  | JObject _ => false
  | JArray items => forallb isReactChild items
  | _ => true
  end.

(** [a || b] on values that may be [undefined]. *)
Definition value_or (a b : option json) : option json :=
  match a with
  | Some v => if ToBoolean v then Some v else b
  | None => b
  end.

(** [a || 'literal'] *)
Definition value_or_lit (a : option json) (b : jsstring) : json :=
  match a with
  | Some v => if ToBoolean v then v else JString b
  | None => JString b
  end.

(** The browser's [File]. *)
Record File : Type := {
  file_name : jsstring;
  file_size : N;
  file_type : jsstring
}.

Record SavedFile : Type := {
  original_name : jsstring;
  saved_name : jsstring;
  file_path : jsstring;
  saved_file_size : Z;
  content_type : jsstring
}.

Record UploadMetadata : Type := {
  md_upload_id : jsstring;
  md_student_name : jsstring;
  md_exam_id : jsstring;
  md_paper_number : option jsstring;
  md_upload_timestamp : jsstring;
  md_files : list SavedFile;
  md_status : jsstring;
  md_processed : bool
}.

Record UploadResponse : Type := {
  ur_message : jsstring;
  upload_id : jsstring;
  files_count : Z;
  metadata : UploadMetadata
}.

Record ProcessedFile : Type := {
  pf_file_name : jsstring;
  extracted_text : jsstring;
  text_length : Z
}.

Record Evaluation : Type := {
  total_marks : Q;
  possible_marks : Q;
  percentage : Q;
  overall_feedback : jsstring
}.

Record ProcessingResponse : Type := {
  pr_message : jsstring;
  pr_upload_id : jsstring;
  pr_student_name : jsstring;
  processed_files : list ProcessedFile;
  evaluation : Evaluation;
  detailed_results : any
}.

Record UploadSession : Type := {
  us_upload_id : jsstring;
  us_student_name : jsstring;
  us_exam_id : jsstring;
  us_upload_timestamp : jsstring;
  us_status : jsstring;
  us_processed : bool;
  us_files_count : Z
}.

Record UploadsList : Type := {
  uploads : list UploadSession;
  total_count : Z
}.

Record StudentInfo : Type := {
  si_name : jsstring;
  si_exam_id : jsstring;
  si_paper_number : option jsstring
}.

Record ProcessingInfo : Type := {
  pi_upload_timestamp : jsstring;
  pi_processing_timestamp : jsstring;
  pi_files_count : Z
}.

Record EvaluationResults : Type := {
  er_upload_id : jsstring;
  student_info : StudentInfo;
  processing_info : ProcessingInfo;
  evaluation_results : any
}.

Record UploadedSessionEntry : Type := {
  use_upload_id : jsstring;
  use_student_name : jsstring;
  use_files_count : Z
}.

Record BatchUploadResponse : Type := {
  bu_message : jsstring;
  bu_batch_id : jsstring;
  bu_total_students : Z;
  uploaded_sessions : list UploadedSessionEntry
}.

(** The [statistics] object of a batch response. *)
Record Statistics : Type := {
  total_students : Z;
  successful : Z;
  failed : Z;
  average_percentage : Q;
  total_marks_awarded : Q;
  total_possible_marks : Q
}.

Inductive Status : Type := success_status | error_status.

(** One element of [results]; [evaluation?] and [error?] are optional. *)
Record BatchResultEntry : Type := {
  br_upload_id : jsstring;
  br_student_name : jsstring;
  br_status : Status;
  br_evaluation : option Evaluation;
  br_error : option jsstring
}.

Record BatchProcessingResponse : Type := {
  bp_message : jsstring;
  bp_batch_id : jsstring;
  bp_statistics : Statistics;
  bp_results : list BatchResultEntry
}.

Record BatchInfo : Type := {
  bi_exam_id : jsstring;
  bi_paper_number : option jsstring;
  bi_total_students : Z
}.

Record BatchProcessingInfo : Type := {
  bpi_upload_timestamp : jsstring;
  bpi_processing_timestamp : jsstring
}.

Record BatchResults : Type := {
  bres_batch_id : jsstring;
  batch_info : BatchInfo;
  bres_processing_info : BatchProcessingInfo;
  bres_statistics : Statistics;
  bres_results : list BatchResultEntry
}.

(** ** axios: configurations, requests and settled promises *)

Inductive Method : Type := GET | POST.

Inductive FormValue : Type :=
| FileValue (f : File)
| StringValue (s : jsstring).

(** [FormData]: the appended (name, value) pairs, in order. *)
Definition FormData : Type := list (jsstring * FormValue).

Definition Headers : Type := list (jsstring * jsstring).

(** An axios configuration object; an absent key is [None]. *)
Record AxiosConfig : Type := {
  baseURL : option jsstring;
  timeout : option N;
  headers : Headers
}.

(** Keys of [over] win, the other keys of [base] are kept. *)
Definition mergeHeaders (base over : Headers) : Headers :=
  over ++ filter (fun kv => negb (existsb (fun kv' => JsString.eqb (fst kv') (fst kv)) over)) base.

Definition or_default {A : Type} (o d : option A) : option A :=
  match o with Some _ => o | None => d end.

(** axios' [mergeConfig]: the second configuration takes precedence. *)
Definition mergeConfig (base over : AxiosConfig) : AxiosConfig :=
  {| baseURL := or_default (baseURL over) (baseURL base);
     timeout := or_default (timeout over) (timeout base);
     headers := mergeHeaders (headers base) (headers over) |}.

(** The library defaults: no base URL, [timeout: 0], that is, none, and
    the common [Accept] header. *)
Definition axios_defaults : AxiosConfig :=
  {| baseURL := None; timeout := Some 0%N;
     headers := [(lit "Accept", lit "application/json, text/plain, */*")] |}.

Definition noConfig : AxiosConfig :=
  {| baseURL := None; timeout := None; headers := [] |}.

(** An instance is its defaults. [axios.create(config)]. *)
Definition AxiosInstance : Type := AxiosConfig.

Definition axios_create (config : AxiosConfig) : AxiosInstance :=
  mergeConfig axios_defaults config.

(** The request an instance dispatches: the per-call configuration merged
    over the instance defaults. [req_timeout] is in milliseconds and [0]
    means that the request never times out. *)
Record request : Type := {
  req_method : Method;
  req_baseURL : option jsstring;
  req_url : jsstring;
  req_data : option FormData;
  req_timeout : N;
  req_headers : Headers
}.

Definition dispatch (inst : AxiosInstance) (m : Method) (url : jsstring)
    (body : option FormData) (config : AxiosConfig) : request :=
  let merged := mergeConfig inst config in
  {| req_method := m;
     req_baseURL := baseURL merged;
     req_url := url;
     req_data := body;
     req_timeout := match timeout merged with Some t => t | None => 0%N end;
     req_headers := headers merged |}.

(** The declared type of [response.data], one per return type of the
    methods of [ApiService]. *)
Inductive schema : Type :=
| SUploadResponse | SProcessingResponse | SEvaluationResults | SUploadsList
| SAny | SBatchUploadResponse | SBatchProcessingResponse | SBatchResults.

Definition data_of (s : schema) : Type :=
  match s with
  | SUploadResponse => UploadResponse
  | SProcessingResponse => ProcessingResponse
  | SEvaluationResults => EvaluationResults
  | SUploadsList => UploadsList
  | SAny => any
  | SBatchUploadResponse => BatchUploadResponse
  | SBatchProcessingResponse => BatchProcessingResponse
  | SBatchResults => BatchResults
  end.

Record AxiosResponse (T : Type) : Type := {
  data : T;
  status : Z
}.

(** What the catch clause reads of a thrown value:
    [err.response?.data?.detail] and [err.message]. *)
Record ErrorBody : Type := { detail : option json }.

Record ErrorResponse : Type := {
  err_status : Z;
  err_data : option ErrorBody
}.

Record Thrown : Type := {
  message : option jsstring;
  response : option ErrorResponse
}.

Inductive settled (T : Type) : Type :=
| Fulfilled (r : AxiosResponse T)
| Rejected (e : Thrown).

Arguments Fulfilled {T} r.
Arguments Rejected {T} e.

(** ** Asynchronous programs *)

(** What [setTimeout] is given in this program. *)
Inductive Callback : Type := Navigate (path : jsstring).

(** An [async] body: it returns, awaits a request, or arms a timer. *)
Inductive prog (R : Type) : Type :=
| Ret (r : R)
| Await (s : schema) (req : request) (k : settled (data_of s) -> prog R)
| SetTimeout (cb : Callback) (delay : N) (k : prog R).

Arguments Ret {R} r.
Arguments Await {R} s req k.
Arguments SetTimeout {R} cb delay k.

Fixpoint pbind {A B : Type} (p : prog A) (f : A -> prog B) : prog B :=
  match p with
  | Ret a => f a
  | Await s req k => Await s req (fun o => pbind (k o) f)
  | SetTimeout cb d k => SetTimeout cb d (pbind k f)
  end.

(** Normal or abrupt ([throw]) completion. *)
Inductive completion (A : Type) : Type :=
| Normal (a : A)
| Throw (e : Thrown).

Arguments Normal {A} a.
Arguments Throw {A} e.

(** Code running over a store [S]: the store survives a throw. *)
Definition M (S A : Type) : Type := S -> prog (completion A * S).

Definition ret {S A : Type} (a : A) : M S A := fun s => Ret (Normal a, s).

Definition bind {S A B : Type} (m : M S A) (f : A -> M S B) : M S B :=
  fun s => pbind (m s) (fun r =>
    match fst r with
    | Normal a => f a (snd r)
    | Throw e => Ret (Throw e, snd r)
    end).

Declare Scope js_scope.
Delimit Scope js_scope with js.
Notation "x <- m ;; k" := (bind m (fun x => k))
  (at level 100, m at next level, right associativity) : js_scope.
Notation "m ;; k" := (bind m (fun _ => k))
  (at level 100, right associativity) : js_scope.

Definition modify {S : Type} (f : S -> S) : M S unit :=
  fun s => Ret (Normal tt, f s).

(** [await inst.method(url, data, config)]: a rejection is thrown. *)
Definition await {S : Type} (s : schema) (req : request) : M S (AxiosResponse (data_of s)) :=
  fun st => Await s req (fun o =>
    match o with
    | Fulfilled r => Ret (Normal r, st)
    | Rejected e => Ret (Throw e, st)
    end).

Definition setTimeout {S : Type} (cb : Callback) (delay : N) : M S unit :=
  fun st => SetTimeout cb delay (Ret (Normal tt, st)).

(** [try { body } catch (err) { handler err } finally { fin }]. *)
Definition try_catch {S A : Type} (body : M S A) (handler : Thrown -> M S A) : M S A :=
  fun s => pbind (body s) (fun r =>
    match fst r with
    | Normal a => Ret (Normal a, snd r)
    | Throw e => handler e (snd r)
    end).

Definition finally {S A : Type} (body : M S A) (fin : M S unit) : M S A :=
  fun s => pbind (body s) (fun r =>
    pbind (fin (snd r)) (fun r' =>
      match fst r' with
      | Normal _ => Ret (fst r, snd r')
      | Throw e => Ret (Throw e, snd r')
      end)).

(** ** services/api.ts *)

Local Open Scope js_scope.

(** [process.env.REACT_APP_API_URL || 'http://localhost:8000'] *)
Definition API_BASE_URL (REACT_APP_API_URL : option jsstring) : jsstring :=
  js_or_lit REACT_APP_API_URL (lit "http://localhost:8000").

Definition application_json : Headers :=
  [(lit "Content-Type", lit "application/json")].

Definition multipart_form_data : AxiosConfig :=
  {| baseURL := None; timeout := None;
     headers := [(lit "Content-Type", lit "multipart/form-data")] |}.

(** [class ApiService]: its one field, the axios instance every method
    but [healthCheck] goes through. *)
Record ApiService : Type := { api : AxiosInstance }.

Definition apiService (REACT_APP_API_URL : option jsstring) : ApiService :=
  {| api := axios_create
       {| baseURL := Some (API_BASE_URL REACT_APP_API_URL ++ lit "/api/v1");
          timeout := Some 120000%N;
          headers := application_json |} |}.

Definition isHighSurrogate (c : N) : bool := ((0xD800 <=? c) && (c <=? 0xDBFF))%N.

Definition isLowSurrogate (c : N) : bool := ((0xDC00 <=? c) && (c <=? 0xDFFF))%N.

(** A code unit that stands for a scalar value on its own. *)
Definition isScalarValue (c : N) : bool :=
  negb (isHighSurrogate c || isLowSurrogate c).

(** The conversion [FormData.append] applies to a string value
    (a USVString): a surrogate pair is kept, a surrogate that stands
    alone becomes U+FFFD. *)
Fixpoint toUSVString (s : jsstring) : jsstring :=
  match s with
  | [] => []
  | c :: r =>
      if isHighSurrogate c then
        match r with
        | d :: r' =>
            if isLowSurrogate d then c :: d :: toUSVString r'
            else 0xFFFD%N :: toUSVString r
        | [] => [0xFFFD%N]
        end
      else if isLowSurrogate c then 0xFFFD%N :: toUSVString r
      else c :: toUSVString r
  end.

(** The form [uploadAnswerSheet] builds: the files, then the fields. *)
Definition uploadAnswerSheet_form (files : list File)
    (studentName examId : jsstring) (paperNumber : option jsstring) : FormData :=
  map (fun file => (lit "files", FileValue file)) files
  ++ [(lit "student_name", StringValue (toUSVString studentName));
      (lit "exam_id", StringValue (toUSVString examId))]
  ++ match js_or paperNumber None with
     | Some p => [(lit "paper_number", StringValue (toUSVString p))]
     | None => []
     end.

(** The request each method hands to axios. *)
Definition uploadAnswerSheet_request (svc : ApiService) (files : list File)
    (studentName examId : jsstring) (paperNumber : option jsstring) : request :=
  dispatch (api svc) POST (lit "/upload/answer-sheet")
    (Some (uploadAnswerSheet_form files studentName examId paperNumber))
    multipart_form_data.

Definition processAnswerSheet_request (svc : ApiService) (uploadId : jsstring) : request :=
  dispatch (api svc) POST (lit "/process/answer-sheet/" ++ uploadId) None noConfig.

Definition getEvaluationResults_request (svc : ApiService) (uploadId : jsstring) : request :=
  dispatch (api svc) GET (lit "/results/" ++ uploadId) None noConfig.

Definition listUploads_request (svc : ApiService) : request :=
  dispatch (api svc) GET (lit "/uploads") None noConfig.

Definition getQuestionPapers_request (svc : ApiService) : request :=
  dispatch (api svc) GET (lit "/papers") None noConfig.

Definition getSystemStatus_request (svc : ApiService) : request :=
  dispatch (api svc) GET (lit "/status") None noConfig.

(** [healthCheck] calls the global [axios], not the instance. *)
Definition healthCheck_request (REACT_APP_API_URL : option jsstring) : request :=
  dispatch axios_defaults GET (API_BASE_URL REACT_APP_API_URL ++ lit "/health")
    None noConfig.

Definition uploadMultipleAnswerSheets_request (svc : ApiService) (formData : FormData) : request :=
  dispatch (api svc) POST (lit "/upload/multiple-answer-sheets") (Some formData)
    multipart_form_data.

Definition processBatchAnswerSheets_request (svc : ApiService) (batchId : jsstring) : request :=
  dispatch (api svc) POST (lit "/process/batch/" ++ batchId) None noConfig.

Definition getBatchEvaluationResults_request (svc : ApiService) (batchId : jsstring) : request :=
  dispatch (api svc) GET (lit "/batch/results/" ++ batchId) None noConfig.

(** The methods: await the request, return [response.data]. *)
Section Methods.

Variable S : Type.
Variable svc : ApiService.

Definition uploadAnswerSheet (files : list File) (studentName examId : jsstring)
    (paperNumber : option jsstring) : M S UploadResponse :=
  response <- await SUploadResponse
    (uploadAnswerSheet_request svc files studentName examId paperNumber) ;;
  ret (data response).

Definition processAnswerSheet (uploadId : jsstring) : M S ProcessingResponse :=
  response <- await SProcessingResponse (processAnswerSheet_request svc uploadId) ;;
  ret (data response).

Definition getEvaluationResults (uploadId : jsstring) : M S EvaluationResults :=
  response <- await SEvaluationResults (getEvaluationResults_request svc uploadId) ;;
  ret (data response).

Definition listUploads : M S UploadsList :=
  response <- await SUploadsList (listUploads_request svc) ;;
  ret (data response).

Definition getQuestionPapers : M S any :=
  response <- await SAny (getQuestionPapers_request svc) ;;
  ret (data response).

Definition getSystemStatus : M S any :=
  response <- await SAny (getSystemStatus_request svc) ;;
  ret (data response).

Definition healthCheck (REACT_APP_API_URL : option jsstring) : M S any :=
  response <- await SAny (healthCheck_request REACT_APP_API_URL) ;;
  ret (data response).

Definition uploadMultipleAnswerSheets (formData : FormData) : M S BatchUploadResponse :=
  response <- await SBatchUploadResponse
    (uploadMultipleAnswerSheets_request svc formData) ;;
  ret (data response).

Definition processBatchAnswerSheets (batchId : jsstring) : M S BatchProcessingResponse :=
  response <- await SBatchProcessingResponse
    (processBatchAnswerSheets_request svc batchId) ;;
  ret (data response).

Definition getBatchEvaluationResults (batchId : jsstring) : M S BatchResults :=
  response <- await SBatchResults (getBatchEvaluationResults_request svc batchId) ;;
  ret (data response).

End Methods.

Arguments uploadAnswerSheet {S} svc files studentName examId paperNumber.
Arguments processAnswerSheet {S} svc uploadId.
Arguments getEvaluationResults {S} svc uploadId.
Arguments listUploads {S} svc.
Arguments getQuestionPapers {S} svc.
Arguments getSystemStatus {S} svc.
Arguments healthCheck {S} REACT_APP_API_URL.
Arguments uploadMultipleAnswerSheets {S} svc formData.
Arguments processBatchAnswerSheets {S} svc batchId.
Arguments getBatchEvaluationResults {S} svc batchId.

(** ** pages/UploadPage.tsx *)

Record UploadedFile : Type := {
  file : File;
  preview : option jsstring
}.

(** The eight [useState] cells of the component. *)
Record State : Type := {
  uploadedFiles : list UploadedFile;
  studentName : jsstring;
  examId : jsstring;
  paperNumber : jsstring;
  uploading : bool;
  processing : bool;
  error : option json;
  success : option jsstring
}.

Definition initialState : State :=
  {| uploadedFiles := []; studentName := []; examId := []; paperNumber := [];
     uploading := false; processing := false; error := None; success := None |}.

Definition setUploadedFiles (f : list UploadedFile -> list UploadedFile) (st : State) : State :=
  {| uploadedFiles := f (uploadedFiles st); studentName := studentName st;
     examId := examId st; paperNumber := paperNumber st;
     uploading := uploading st; processing := processing st;
     error := error st; success := success st |}.

Definition setStudentName (v : jsstring) (st : State) : State :=
  {| uploadedFiles := uploadedFiles st; studentName := v;
     examId := examId st; paperNumber := paperNumber st;
     uploading := uploading st; processing := processing st;
     error := error st; success := success st |}.

Definition setExamId (v : jsstring) (st : State) : State :=
  {| uploadedFiles := uploadedFiles st; studentName := studentName st;
     examId := v; paperNumber := paperNumber st;
     uploading := uploading st; processing := processing st;
     error := error st; success := success st |}.

Definition setPaperNumber (v : jsstring) (st : State) : State :=
  {| uploadedFiles := uploadedFiles st; studentName := studentName st;
     examId := examId st; paperNumber := v;
     uploading := uploading st; processing := processing st;
     error := error st; success := success st |}.

Definition setUploading (v : bool) (st : State) : State :=
  {| uploadedFiles := uploadedFiles st; studentName := studentName st;
     examId := examId st; paperNumber := paperNumber st;
     uploading := v; processing := processing st;
     error := error st; success := success st |}.

Definition setProcessing (v : bool) (st : State) : State :=
  {| uploadedFiles := uploadedFiles st; studentName := studentName st;
     examId := examId st; paperNumber := paperNumber st;
     uploading := uploading st; processing := v;
     error := error st; success := success st |}.

Definition setError (v : option json) (st : State) : State :=
  {| uploadedFiles := uploadedFiles st; studentName := studentName st;
     examId := examId st; paperNumber := paperNumber st;
     uploading := uploading st; processing := processing st;
     error := v; success := success st |}.

Definition setSuccess (v : option jsstring) (st : State) : State :=
  {| uploadedFiles := uploadedFiles st; studentName := studentName st;
     examId := examId st; paperNumber := paperNumber st;
     uploading := uploading st; processing := processing st;
     error := error st; success := v |}.

(** What the page takes from the browser and from react-dropzone's type
    check; neither is looked into. *)
Record Browser : Type := {
  createObjectURL : File -> jsstring;
  acceptsType : list (jsstring * list jsstring) -> File -> bool
}.

(** The options given to [useDropzone]. *)
Record DropzoneOptions : Type := {
  accept : list (jsstring * list jsstring);
  multiple : bool;
  maxSize : N
}.

Definition dropzoneOptions : DropzoneOptions :=
  {| accept :=
       [ (lit "image/*", [lit ".jpeg"; lit ".jpg"; lit ".png"; lit ".bmp"; lit ".tiff"; lit ".gif"]);
         (lit "application/pdf", [lit ".pdf"]);
         (lit "text/plain", [lit ".txt"]);
         (lit "text/markdown", [lit ".md"]);
         (lit "text/csv", [lit ".csv"]);
         (lit "application/msword", [lit ".doc"]);
         (lit "application/vnd.openxmlformats-officedocument.wordprocessingml.document", [lit ".docx"]);
         (lit "application/rtf", [lit ".rtf"]) ];
     multiple := true;
     maxSize := 50 * 1024 * 1024 |}.

(** Modelled from the spec: react-dropzone's size check is not among the
    sources. A file passes when its size does not exceed [maxSize] (the
    configured maximum of the file constraint) and is not below
    [minSize], which the page leaves at its default of 0. *)
Definition fileMatchSize (f : File) (minSize maxSize : N) : bool :=
  negb (maxSize <? file_size f)%N && negb (file_size f <? minSize)%N.

(** Modelled from the spec: the files react-dropzone hands to [onDrop] as
    [acceptedFiles], those that pass the type check and the size check;
    with [multiple: true] and no [maxFiles] nothing else is rejected. *)
Definition acceptedFiles (br : Browser) (opts : DropzoneOptions) (dropped : list File) : list File :=
  filter (fun f => acceptsType br (accept opts) f && fileMatchSize f 0 (maxSize opts)) dropped.

Definition onDrop (br : Browser) (accepted : list File) (st : State) : State :=
  let newFiles :=
    map (fun f =>
           {| file := f;
              preview := if JsString.startsWith (file_type f) (lit "image/")
                         then Some (createObjectURL br f) else None |})
        accepted in
  setError None (setUploadedFiles (fun prev => prev ++ newFiles) st).

(** [prev.filter((_, i) => i !== index)] *)
Fixpoint filter_index {A : Type} (keep : nat -> bool) (i : nat) (l : list A) : list A :=
  match l with
  | [] => []
  | x :: r => if keep i then x :: filter_index keep (S i) r else filter_index keep (S i) r
  end.

Definition removeFile (index : nat) (st : State) : State :=
  setUploadedFiles (filter_index (fun i => negb (i =? index)%nat) 0) st.

(** [err.response?.data?.detail] *)
Definition response_data_detail (err : Thrown) : option json :=
  match response err with
  | Some r => match err_data r with
              | Some d => detail d
              | None => None
              end
  | None => None
  end.

(** [err.response?.data?.detail || err.message || 'Upload failed'] *)
Definition error_message (err : Thrown) : json :=
  value_or_lit
    (value_or (response_data_detail err) (option_map JString (message err)))
    (lit "Upload failed").

Definition handleSubmit (svc : ApiService) : M State unit := fun st =>
  (if negb (JsString.truthy (JsString.trim (studentName st))) then
     modify (setError (Some (JString (lit "Student name is required"))))
   else if negb (JsString.truthy (JsString.trim (examId st))) then
     modify (setError (Some (JString (lit "Exam ID is required"))))
   else if (List.length (uploadedFiles st) =? 0)%nat then
     modify (setError (Some (JString (lit "Please upload at least one file"))))
   else
     (modify (setUploading true) ;;
      modify (setError None) ;;
      modify (setSuccess None) ;;
      finally
        (try_catch
           (uploadResponse <- uploadAnswerSheet svc
                (map file (uploadedFiles st))
                (JsString.trim (studentName st))
                (JsString.trim (examId st))
                (js_or (Some (JsString.trim (paperNumber st))) None) ;;
            modify (setSuccess (Some (lit "Files uploaded successfully! AI evaluation in progress..."))) ;;
            modify (setProcessing true) ;;
            modify (setUploading false) ;;
            processResponse <- processAnswerSheet svc (upload_id uploadResponse) ;;
            modify (setSuccess (Some (lit "Evaluation completed successfully!"))) ;;
            setTimeout (Navigate (lit "/results/" ++ upload_id uploadResponse)) 2000)
           (fun err => modify (setError (Some (error_message err)))))
        (modify (setUploading false) ;;
         modify (setProcessing false)))) st.

Definition isFormValid (st : State) : bool :=
  JsString.truthy (JsString.trim (studentName st))
  && JsString.truthy (JsString.trim (examId st))
  && (0 <? List.length (uploadedFiles st))%nat.

(** ** Running a program against the remote service *)

(** The service: a state and, for each request, the next state and the
    way the promise settles. *)
Record Server : Type := {
  remote : Type;
  serve : remote -> forall s : schema, request -> remote * settled (data_of s)
}.

(** What leaves the handler, in order. *)
Inductive io : Type :=
| Sent (s : schema) (req : request)
| Timer (cb : Callback) (delay : N).

Definition result_of {R T : Type} (x : R * T * list io) : R := fst (fst x).
Definition remote_after {R T : Type} (x : R * T * list io) : T := snd (fst x).
Definition trace_of {R T : Type} (x : R * T * list io) : list io := snd x.

Fixpoint run (srv : Server) {R : Type} (p : prog R) (sigma : remote srv)
  : R * remote srv * list io :=
  match p with
  | Ret r => (r, sigma, [])
  | Await s req k =>
      let answer := serve srv sigma s req in
      let out := run srv (k (snd answer)) (fst answer) in
      (result_of out, remote_after out, Sent s req :: trace_of out)
  | SetTimeout cb d k =>
      let out := run srv k sigma in
      (result_of out, remote_after out, Timer cb d :: trace_of out)
  end.

Definition requests (t : list io) : list request :=
  flat_map (fun e => match e with Sent _ req => [req] | Timer _ _ => [] end) t.

(** The component state once [handleSubmit] has completed. *)
Definition submitted (svc : ApiService) (srv : Server) (st : State) (sigma : remote srv) : State :=
  snd (result_of (run srv (handleSubmit svc st) sigma)).

(** ** The page as the user drives it *)

Inductive ui_event : Type :=
| TypeStudentName (v : jsstring)
| TypeExamId (v : jsstring)
| SelectPaperNumber (v : jsstring)
| DropFiles (dropped : list File)
| ClickDelete (index : nat)
| ClickSubmit
| CloseErrorAlert.

Definition busy (st : State) : bool := uploading st || processing st.

(** One event, handled to completion. The fields, the delete buttons and
    the submit button carry [disabled={uploading || processing}], the
    submit button also [!isFormValid]. *)
Definition ui_step (br : Browser) (svc : ApiService) (srv : Server)
    (c : State * remote srv) (ev : ui_event) : State * remote srv :=
  let (st, sigma) := c in
  match ev with
  | TypeStudentName v => (if busy st then st else setStudentName v st, sigma)
  | TypeExamId v => (if busy st then st else setExamId v st, sigma)
  | SelectPaperNumber v => (if busy st then st else setPaperNumber v st, sigma)
  | DropFiles dropped => (onDrop br (acceptedFiles br dropzoneOptions dropped) st, sigma)
  | ClickDelete index => (if busy st then st else removeFile index st, sigma)
  | ClickSubmit =>
      if negb (isFormValid st) || busy st then (st, sigma)
      else let out := run srv (handleSubmit svc st) sigma in
           (snd (result_of out), remote_after out)
  | CloseErrorAlert => (setError None st, sigma)
  end.

Definition ui_run (br : Browser) (svc : ApiService) (srv : Server)
    (sigma : remote srv) (evs : list ui_event) : State * remote srv :=
  fold_left (ui_step br svc srv) evs (initialState, sigma).

(** ** Batch statistics *)

Module Spec.

Record Extraction : Type := {
  fileName : jsstring;
  extractedText : jsstring;
  textLength : Z
}.

Record EvaluationResult : Type := {
  totalMarks : Q;
  possibleMarks : Q;
  percentage : Q;
  feedback : jsstring;
  perFileExtraction : list Extraction
}.

(** Exactly one of result and error, determined by the status. *)
Inductive Outcome : Type :=
| Success (result : EvaluationResult)
| Error (error : jsstring).

Record BatchOutcome : Type := {
  submissionId : jsstring;
  participantName : jsstring;
  outcome : Outcome
}.

Record BatchStatistics : Type := {
  totalCount : nat;
  successCount : nat;
  failureCount : nat;
  averagePercentage : Q;
  totalMarksAwarded : Q;
  totalPossibleMarks : Q
}.

Definition isSuccess (o : BatchOutcome) : bool :=
  match outcome o with Success _ => true | Error _ => false end.

Definition isError (o : BatchOutcome) : bool :=
  match outcome o with Success _ => false | Error _ => true end.

(** The results of the successful outcomes, in order. *)
Definition successes (os : list BatchOutcome) : list EvaluationResult :=
  flat_map (fun o => match outcome o with Success r => [r] | Error _ => [] end) os.

Definition sumQ (l : list Q) : Q := fold_right Qplus 0 l.

Definition mean (l : list Q) : Q := sumQ l / inject_Z (Z.of_nat (List.length l)).

(** Modelled from the spec: the aggregation that derives the
    statistics from a set of outcomes is not among the sources (the
    client only declares the shape of the object). Counts are over the
    outcomes, sums over the successes, and the average is the sum of
    the successful percentages over the number of successes, or 0 when
    there is none. *)
Definition batchStatistics (os : list BatchOutcome) : BatchStatistics :=
  let n := List.length (filter isSuccess os) in
  {| totalCount := List.length os;
     successCount := n;
     failureCount := List.length (filter isError os);
     averagePercentage :=
       if (n =? 0)%nat then 0
       else sumQ (map percentage (successes os)) / inject_Z (Z.of_nat n);
     totalMarksAwarded := sumQ (map totalMarks (successes os));
     totalPossibleMarks := sumQ (map possibleMarks (successes os)) |}.

(** The data-model constraint on a result: a percentage is in 0..100. *)
Definition wf_result (r : EvaluationResult) : Prop :=
  0 <= percentage r /\ percentage r <= 100.

End Spec.

(** An element of a [results] array as an outcome: a [success] entry
    carries its evaluation, anything else is an error. *)
Definition outcome_of_entry (e : BatchResultEntry) : Spec.BatchOutcome :=
  {| Spec.submissionId := br_upload_id e;
     Spec.participantName := br_student_name e;
     Spec.outcome :=
       match br_status e, br_evaluation e with
       | success_status, Some ev =>
           Spec.Success
             {| Spec.totalMarks := total_marks ev;
                Spec.possibleMarks := possible_marks ev;
                Spec.percentage := percentage ev;
                Spec.feedback := overall_feedback ev;
                Spec.perFileExtraction := [] |}
       | _, _ => Spec.Error (match br_error e with Some m => m | None => [] end)
       end |}.

(** The statistics recomputed from a [results] array by the aggregation
    rule, in the shape of the [statistics] object. *)
Definition recomputedStatistics (results : list BatchResultEntry) : Statistics :=
  let s := Spec.batchStatistics (map outcome_of_entry results) in
  {| total_students := Z.of_nat (Spec.totalCount s);
     successful := Z.of_nat (Spec.successCount s);
     failed := Z.of_nat (Spec.failureCount s);
     average_percentage := Spec.averagePercentage s;
     total_marks_awarded := Spec.totalMarksAwarded s;
     total_possible_marks := Spec.totalPossibleMarks s |}.

(** ** Sample data: scenario A of the design, and a service to run it on *)

Module Sample.

Definition answers_pdf : File :=
  {| file_name := lit "answers.pdf"; file_size := 204800;
     file_type := lit "application/pdf" |}.

Definition oversized_pdf : File :=
  {| file_name := lit "scan.pdf"; file_size := 50 * 1024 * 1024 + 1;
     file_type := lit "application/pdf" |}.

Definition browser : Browser :=
  {| createObjectURL := fun f => lit "blob:" ++ file_name f;
     acceptsType := fun _ _ => true |}.

Definition svc : ApiService := apiService None.

(** The form filled in: Alice, MID-2024, one PDF. *)
Definition filled : State :=
  {| uploadedFiles := [ {| file := answers_pdf; preview := None |} ];
     studentName := lit " Alice "; examId := lit "MID-2024"; paperNumber := [];
     uploading := false; processing := false; error := None; success := None |}.

Definition uploadResponse : UploadResponse :=
  {| ur_message := lit "Files uploaded successfully";
     upload_id := lit "abc123";
     files_count := 1;
     metadata :=
       {| md_upload_id := lit "abc123"; md_student_name := lit "Alice";
          md_exam_id := lit "MID-2024"; md_paper_number := None;
          md_upload_timestamp := lit "2024-03-01T10:00:00";
          md_files := []; md_status := lit "uploaded"; md_processed := false |} |}.

Definition processingResponse : ProcessingResponse :=
  {| pr_message := lit "Processing completed";
     pr_upload_id := lit "abc123"; pr_student_name := lit "Alice";
     processed_files := [];
     evaluation :=
       {| total_marks := 18; possible_marks := 20; percentage := 90;
          overall_feedback := lit "Good work" |};
     detailed_results := Opaque (lit "{}") |}.

Definition evaluationResults : EvaluationResults :=
  {| er_upload_id := lit "abc123";
     student_info :=
       {| si_name := lit "Alice"; si_exam_id := lit "MID-2024"; si_paper_number := None |};
     processing_info :=
       {| pi_upload_timestamp := lit "2024-03-01T10:00:00";
          pi_processing_timestamp := lit "2024-03-01T10:01:30";
          pi_files_count := 1 |};
     evaluation_results := Opaque (lit "{}") |}.

(** A batch answer whose [statistics] and [results] disagree: one
    result, but three students counted. *)
Definition skewedStatistics : Statistics :=
  {| total_students := 3; successful := 2; failed := 1;
     average_percentage := 75; total_marks_awarded := 30;
     total_possible_marks := 40 |}.

Definition aliceEntry : BatchResultEntry :=
  {| br_upload_id := lit "abc123"; br_student_name := lit "Alice";
     br_status := success_status;
     br_evaluation := Some (evaluation processingResponse);
     br_error := None |}.

Definition batchProcessingResponse : BatchProcessingResponse :=
  {| bp_message := lit "Batch processing completed";
     bp_batch_id := lit "batch-1";
     bp_statistics := skewedStatistics;
     bp_results := [aliceEntry] |}.

Definition batchResults : BatchResults :=
  {| bres_batch_id := lit "batch-1";
     batch_info := {| bi_exam_id := lit "MID-2024"; bi_paper_number := None;
                      bi_total_students := 3 |};
     bres_processing_info :=
       {| bpi_upload_timestamp := lit "2024-03-01T10:00:00";
          bpi_processing_timestamp := lit "2024-03-01T10:01:30" |};
     bres_statistics := skewedStatistics;
     bres_results := [aliceEntry] |}.

Definition ok {T : Type} (d : T) : settled T :=
  Fulfilled {| data := d; status := 200 |}.

(** A 500 with a FastAPI body [{detail: ...}]. *)
Definition evaluationFailed : Thrown :=
  {| message := Some (lit "Request failed with status code 500");
     response := Some {| err_status := 500;
                         err_data := Some {| detail := Some (JString (lit "Evaluation failed")) |} |} |}.

Definition notFound : Thrown :=
  {| message := Some (lit "Request failed with status code 404");
     response := Some {| err_status := 404;
                         err_data := Some {| detail := Some (JString (lit "Not found")) |} |} |}.

(** A service that counts the POSTs it has served and leaves its state
    alone on a GET. [evaluates] says whether processing succeeds. *)
Definition answer (evaluates : bool) (s : schema) : settled (data_of s) :=
  match s with
  | SUploadResponse => ok uploadResponse
  | SProcessingResponse =>
      if evaluates then ok processingResponse else Rejected evaluationFailed
  | SEvaluationResults => ok evaluationResults
  | SBatchProcessingResponse => ok batchProcessingResponse
  | SBatchResults => ok batchResults
  | _ => Rejected notFound
  end.

Definition server (evaluates : bool) : Server :=
  {| remote := nat;
     serve := fun posts s req =>
       (match req_method req with POST => S posts | GET => posts end,
        answer evaluates s) |}.

Definition alice : Spec.BatchOutcome :=
  {| Spec.submissionId := lit "abc123"; Spec.participantName := lit "Alice";
     Spec.outcome := Spec.Success
       {| Spec.totalMarks := 18; Spec.possibleMarks := 20; Spec.percentage := 90;
          Spec.feedback := lit "Good work"; Spec.perFileExtraction := [] |} |}.

Definition bob : Spec.BatchOutcome :=
  {| Spec.submissionId := lit "def456"; Spec.participantName := lit "Bob";
     Spec.outcome := Spec.Error (lit "Exam ID is required") |}.

End Sample.

(** ** The states [handleSubmit] passes through *)

(** After the three setters that precede the [try]. *)
Definition started (st : State) : State :=
  setSuccess None (setError None (setUploading true st)).

(** After the upload has returned and before processing is awaited. *)
Definition uploaded (st : State) : State :=
  setUploading false
    (setProcessing true
       (setSuccess (Some (lit "Files uploaded successfully! AI evaluation in progress..."))
          (started st))).

(** The [finally] block. *)
Definition cleared (st : State) : State :=
  setProcessing false (setUploading false st).

Definition upload_failed (e : Thrown) (st : State) : State :=
  cleared (setError (Some (error_message e)) (started st)).

Definition processing_failed (e : Thrown) (st : State) : State :=
  cleared (setError (Some (error_message e)) (uploaded st)).

Definition evaluated (st : State) : State :=
  cleared (setSuccess (Some (lit "Evaluation completed successfully!")) (uploaded st)).

(** The upload request [handleSubmit] sends from the state [st]. *)
Definition submit_request (svc : ApiService) (st : State) : request :=
  uploadAnswerSheet_request svc
    (map file (uploadedFiles st))
    (JsString.trim (studentName st))
    (JsString.trim (examId st))
    (js_or (Some (JsString.trim (paperNumber st))) None).

(** A value that is there and truthy, or not. *)
Definition present (o : option jsstring) (s : jsstring) : Prop :=
  o = Some s /\ s <> [].

Definition absent (o : option jsstring) : Prop :=
  o = None \/ o = Some [].

(** The body of the response has no truthy [detail]. *)
Definition no_detail (e : Thrown) : Prop :=
  forall d, response_data_detail e = Some d -> ToBoolean d = false.

(** A 422 of the service: the [detail] of a request validation error is
    an array of objects, one per offending field. *)
Definition unprocessable : Thrown :=
  {| message := Some (lit "Request failed with status code 422");
     response :=
       Some {| err_status := 422;
               err_data :=
                 Some {| detail :=
                           Some (JArray
                                   [JObject
                                      [(lit "loc", JArray [JString (lit "body");
                                                            JString (lit "exam_id")]);
                                       (lit "msg", JString (lit "string does not match regex"));
                                       (lit "type", JString (lit "value_error.str.regex"))]])
                      |} |} |}.

(** A service that answers every request with that 422. *)
Definition validating : Server :=
  {| remote := unit;
     serve := fun sigma s req => (sigma, Rejected unprocessable) |}.

(** A service that cannot be reached: every promise is rejected with
    axios' network error, which carries no response. *)
Definition networkError : Thrown :=
  {| message := Some (lit "Network Error"); response := None |}.

Definition unreachable : Server :=
  {| remote := unit;
     serve := fun sigma s req => (sigma, Rejected networkError) |}.

(** The label of the chip shown next to a file of the list. *)
Definition chipLabel (uf : UploadedFile) : jsstring :=
  if JsString.startsWith (file_type (file uf)) (lit "image/")
  then lit "Image" else lit "PDF".

(** A file of the list carries a preview exactly when it is an image. *)
Definition preview_matches_type (uf : UploadedFile) : Prop :=
  preview uf <> None <-> JsString.startsWith (file_type (file uf)) (lit "image/") = true.

(** The timers armed along a run. *)
Definition timers (t : list io) : list (Callback * N) :=
  flat_map (fun e => match e with Sent _ _ => [] | Timer cb d => [(cb, d)] end) t.

(** ** components/Navbar.tsx *)

Record NavItem : Type := {
  label : jsstring;
  path : jsstring
}.

Definition navItems : list NavItem :=
  [ {| label := lit "Home"; path := lit "/" |};
    {| label := lit "Upload"; path := lit "/upload" |};
    {| label := lit "Batch Upload"; path := lit "/batch-upload" |};
    {| label := lit "Results"; path := lit "/results" |};
    {| label := lit "History"; path := lit "/history" |} ].

(** [location.pathname === item.path], the test that highlights a button. *)
Definition isActive (pathname : jsstring) (item : NavItem) : bool :=
  JsString.eqb pathname (path item).

Definition backgroundColor (pathname : jsstring) (item : NavItem) : jsstring :=
  if isActive pathname item then lit "rgba(255,255,255,0.1)" else lit "transparent".

(** The file constraint, on every file of the form. *)
Definition within_limit (st : State) : Prop :=
  Forall (fun uf => (file_size (file uf) <= 50 * 1024 * 1024)%N) (uploadedFiles st).

(** The files of a multipart form. *)
Definition form_files (fd : FormData) : list File :=
  flat_map (fun kv => match snd kv with FileValue f => [f] | StringValue _ => [] end) fd.

(** * Properties *)

Unset Implicit Arguments.

(** ** Strings and validation *)

Lemma truthy_false_iff (s : jsstring) : JsString.truthy s = false <-> s = [].
Proof.
  destruct s as [|c r]; simpl; split; intro H; try reflexivity; discriminate H.
Qed.

Lemma truthy_true_iff (s : jsstring) : JsString.truthy s = true <-> s <> [].
Proof.
  destruct s as [|c r]; simpl; split; intro H;
    try discriminate; try reflexivity; now contradiction H.
Qed.

Lemma length_zero_iff {A : Type} (l : list A) : (List.length l =? 0)%nat = true <-> l = [].
Proof.
  destruct l; simpl; split; intro H; try reflexivity; discriminate H.
Qed.

Lemma isFormValid_true (st : State) :
  isFormValid st = true <->
  JsString.truthy (JsString.trim (studentName st)) = true /\
  JsString.truthy (JsString.trim (examId st)) = true /\
  (List.length (uploadedFiles st) =? 0)%nat = false.
Proof.
  unfold isFormValid. rewrite !andb_true_iff.
  destruct (uploadedFiles st) as [|f l]; cbn.
  - split; [intros [_ H]; discriminate H | intros (_ & _ & H); discriminate H].
  - split; [intros [[H1 H2] _] | intros (H1 & H2 & _)]; auto.
Qed.

Lemma trimStart_nil_iff (s : jsstring) :
  JsString.trimStart s = [] <-> forallb JsString.isWhiteSpace s = true.
Proof.
  induction s as [|c s IH]; simpl; [tauto|].
  destruct (JsString.isWhiteSpace c); simpl; [exact IH|].
  split; discriminate.
Qed.

Lemma trimStart_head (s : jsstring) (c : N) (r : jsstring) :
  JsString.trimStart s = c :: r -> JsString.isWhiteSpace c = false.
Proof.
  induction s as [|a s IH]; simpl; [discriminate|].
  destruct (JsString.isWhiteSpace a) eqn:E; [exact IH|].
  intros H. inversion H; subst. exact E.
Qed.

Lemma forallb_rev {A : Type} (p : A -> bool) (l : list A) :
  forallb p (rev l) = forallb p l.
Proof.
  induction l as [|x l IH]; [reflexivity|].
  simpl. rewrite forallb_app, IH. simpl. rewrite andb_true_r. apply andb_comm.
Qed.

Lemma trim_nil_iff (s : jsstring) :
  JsString.trim s = [] <-> forallb JsString.isWhiteSpace s = true.
Proof.
  unfold JsString.trim, JsString.trimEnd. split.
  - intros H. apply (f_equal (@rev N)) in H. rewrite rev_involutive in H.
    cbn [rev] in H. apply trimStart_nil_iff in H. rewrite forallb_rev in H.
    destruct (JsString.trimStart s) as [|c r] eqn:E.
    + now apply trimStart_nil_iff.
    + apply trimStart_head in E. cbn [forallb] in H. rewrite E in H. discriminate H.
  - intros H. apply trimStart_nil_iff in H. rewrite H. reflexivity.
Qed.

Lemma forallb_trimStart (p : N -> bool) (s : jsstring) :
  forallb p s = true -> forallb p (JsString.trimStart s) = true.
Proof.
  induction s as [|c s IH]; simpl; [reflexivity|].
  intros H. destruct (JsString.isWhiteSpace c); [|exact H].
  apply andb_true_iff in H. now apply IH.
Qed.

(** Trimming only takes code units away. *)
Lemma forallb_trim (p : N -> bool) (s : jsstring) :
  forallb p s = true -> forallb p (JsString.trim s) = true.
Proof.
  intros H. unfold JsString.trim, JsString.trimEnd.
  rewrite forallb_rev. apply forallb_trimStart. rewrite forallb_rev.
  now apply forallb_trimStart.
Qed.

(** A string without surrogate code units is its own USVString. *)
Lemma toUSVString_scalar (s : jsstring) :
  forallb isScalarValue s = true -> toUSVString s = s.
Proof.
  induction s as [|c r IH]; [reflexivity|].
  cbn [forallb]. intros H. apply andb_true_iff in H. destruct H as [Hc Hr].
  unfold isScalarValue in Hc. apply negb_true_iff, orb_false_iff in Hc.
  destruct Hc as [Hh Hl]. cbn [toUSVString]. rewrite Hh, Hl.
  f_equal. now apply IH.
Qed.

Lemma js_or_lit_nonempty (a : option jsstring) (b : jsstring) :
  b <> [] -> js_or_lit a b <> [].
Proof.
  intros Hb. unfold js_or_lit.
  destruct a as [s|]; [|exact Hb].
  destruct (JsString.truthy s) eqn:E; [|exact Hb].
  now apply truthy_true_iff.
Qed.

Lemma value_or_lit_truthy (a : option json) (b : jsstring) :
  b <> [] -> ToBoolean (value_or_lit a b) = true.
Proof.
  intros Hb. unfold value_or_lit.
  assert (Hlit : ToBoolean (JString b) = true) by now apply truthy_true_iff.
  destruct a as [v|]; [|exact Hlit].
  destruct (ToBoolean v) eqn:E; [exact E | exact Hlit].
Qed.

Lemma error_message_truthy (e : Thrown) : ToBoolean (error_message e) = true.
Proof.
  apply value_or_lit_truthy. discriminate.
Qed.

(** ** The model on the scenario of the design *)

Example trim_name : JsString.trim (lit "  Alice ") = lit "Alice".
Proof. reflexivity. Qed.

Example blank_name_rejected :
  handleSubmit Sample.svc (setStudentName (lit "   ") Sample.filled) =
  Ret (Normal tt,
       setError (Some (JString (lit "Student name is required")))
         (setStudentName (lit "   ") Sample.filled)).
Proof. reflexivity. Qed.

(** Scenario A: the upload returns "abc123", processing succeeds, and
    the page arms the navigation to the results of that id. *)
Example scenario_A :
  let out := run (Sample.server true) (handleSubmit Sample.svc Sample.filled) 0%nat in
  map req_url (requests (trace_of out)) =
    [lit "/upload/answer-sheet"; lit "/process/answer-sheet/abc123"] /\
  last (trace_of out) (Timer (Navigate []) 0) =
    Timer (Navigate (lit "/results/abc123")) 2000 /\
  success (snd (result_of out)) = Some (lit "Evaluation completed successfully!") /\
  error (snd (result_of out)) = None.
Proof. cbv zeta. repeat split. Qed.

Example oversized_file_rejected :
  map file (uploadedFiles (fst (ui_run Sample.browser Sample.svc (Sample.server true) 0%nat
                                  [DropFiles [Sample.oversized_pdf; Sample.answers_pdf]])))
  = [Sample.answers_pdf].
Proof. reflexivity. Qed.

Example healthCheck_has_no_timeout : req_timeout (healthCheck_request None) = 0%N.
Proof. reflexivity. Qed.

Example lone_surrogate_replaced :
  toUSVString [65; 0xD800]%N = [65; 0xFFFD]%N /\
  toUSVString [0xD83D; 0xDE00; 0xDC00]%N = [0xD83D; 0xDE00; 0xFFFD]%N.
Proof. split; reflexivity. Qed.

Example validation_error_detail_is_taken :
  error_message unprocessable = JArray
    [JObject [(lit "loc", JArray [JString (lit "body"); JString (lit "exam_id")]);
              (lit "msg", JString (lit "string does not match regex"));
              (lit "type", JString (lit "value_error.str.regex"))]] /\
  error_message networkError = JString (lit "Network Error").
Proof. split; reflexivity. Qed.

(** ** C1: one timeout for every call through the instance *)

(** C1, as the claim states it, at a concrete call: the timeout of the
    processing request does not exceed the timeout of the upload request
    (nor that of the fetch and list requests). *)
Lemma process_timeout_not_longer :
  ~ ((req_timeout (uploadAnswerSheet_request Sample.svc [Sample.answers_pdf]
                     (lit "Alice") (lit "MID-2024") None)
      < req_timeout (processAnswerSheet_request Sample.svc (lit "abc123")))%N
     /\ (req_timeout (getEvaluationResults_request Sample.svc (lit "abc123"))
         < req_timeout (processAnswerSheet_request Sample.svc (lit "abc123")))%N
     /\ (req_timeout (listUploads_request Sample.svc)
         < req_timeout (processAnswerSheet_request Sample.svc (lit "abc123")))%N).
Proof.
  intros [H _]. vm_compute in H. discriminate H.
Qed.

(** C1 (amended): every request that goes through the instance of
    [ApiService] (upload, process, fetch, list, and the batch calls) is
    sent with the same timeout, the 120000 ms given to [axios.create];
    the processing calls have the timeout of the others, not a longer
    one. *)
Theorem shared_timeout (env : option jsstring) (files : list File)
    (name exam : jsstring) (paper : option jsstring) (id batchId : jsstring) :
  let svc := apiService env in
  req_timeout (processAnswerSheet_request svc id) = 120000%N /\
  req_timeout (processBatchAnswerSheets_request svc batchId) = 120000%N /\
  req_timeout (uploadAnswerSheet_request svc files name exam paper) = 120000%N /\
  req_timeout (getEvaluationResults_request svc id) = 120000%N /\
  req_timeout (getBatchEvaluationResults_request svc batchId) = 120000%N /\
  req_timeout (listUploads_request svc) = 120000%N.
Proof.
  cbv zeta. repeat split; reflexivity.
Qed.

(** ** C2: batch statistics are passed through *)

Lemma await_data_run (srv : Server) (S : Type) (s : schema) (req : request)
    (st : S) (sigma : remote srv) :
  run srv ((response <- await s req ;; ret (data response)) st) sigma =
  (match snd (serve srv sigma s req) with
   | Fulfilled r => (Normal (data r), st)
   | Rejected e => (Throw e, st)
   end, fst (serve srv sigma s req), [Sent s req]).
Proof.
  unfold bind, await, ret. simpl.
  destruct (snd (serve srv sigma s req)); reflexivity.
Qed.

(** C2, as the claim states it, at a concrete answer: the service
    reports three students next to a single result, and the statistics
    the client returns are those, not the recomputed ones. *)
Lemma batch_statistics_not_recomputed :
  exists d : BatchProcessingResponse,
    result_of (run (Sample.server true)
                 (processBatchAnswerSheets Sample.svc (lit "batch-1") tt) 0%nat)
    = (Normal d, tt) /\
    total_students (bp_statistics d) = 3%Z /\
    total_students (recomputedStatistics (bp_results d)) = 1%Z /\
    bp_statistics d <> recomputedStatistics (bp_results d).
Proof.
  exists Sample.batchProcessingResponse.
  repeat split; try reflexivity.
  intros H. apply (f_equal total_students) in H. vm_compute in H. discriminate H.
Qed.

(** C2 (amended): [processBatchAnswerSheets] and
    [getBatchEvaluationResults] return the body of the response as the
    service sent it; the statistics the client exposes are the
    [statistics] object of the service, unchanged, whatever the
    [results] array holds. *)
Theorem batch_statistics_verbatim (svc : ApiService) (srv : Server)
    (sigma : remote srv) (batchId : jsstring) :
  (forall r : AxiosResponse BatchProcessingResponse,
     snd (serve srv sigma SBatchProcessingResponse
            (processBatchAnswerSheets_request svc batchId)) = Fulfilled r ->
     exists d, result_of (run srv (processBatchAnswerSheets svc batchId tt) sigma)
               = (Normal d, tt)
               /\ d = data r /\ bp_statistics d = bp_statistics (data r)) /\
  (forall r : AxiosResponse BatchResults,
     snd (serve srv sigma SBatchResults
            (getBatchEvaluationResults_request svc batchId)) = Fulfilled r ->
     exists d, result_of (run srv (getBatchEvaluationResults svc batchId tt) sigma)
               = (Normal d, tt)
               /\ d = data r /\ bres_statistics d = bres_statistics (data r)).
Proof.
  split; intros r Hr; exists (data r).
  - unfold processBatchAnswerSheets.
    rewrite (await_data_run srv unit SBatchProcessingResponse), Hr. now repeat split.
  - unfold getBatchEvaluationResults.
    rewrite (await_data_run srv unit SBatchResults), Hr. now repeat split.
Qed.

Lemma batch_statistics_verbatim_witness :
  exists d, result_of (run (Sample.server true)
                         (processBatchAnswerSheets Sample.svc (lit "batch-1") tt) 0%nat)
            = (Normal d, tt)
            /\ d = Sample.batchProcessingResponse
            /\ bp_statistics d = Sample.skewedStatistics.
Proof.
  exact (proj1 (batch_statistics_verbatim Sample.svc (Sample.server true) 0%nat (lit "batch-1"))
           {| data := Sample.batchProcessingResponse; status := 200 |} eq_refl).
Defined.

(** ** C3: validation comes before any request *)

(** An invalid form: one of the three messages is set and the handler
    returns without awaiting anything. *)
Lemma handleSubmit_invalid (svc : ApiService) (st : State) :
  JsString.trim (studentName st) = [] \/
  JsString.trim (examId st) = [] \/
  uploadedFiles st = [] ->
  exists msg : jsstring,
    In msg [lit "Student name is required"; lit "Exam ID is required";
            lit "Please upload at least one file"] /\
    handleSubmit svc st = Ret (Normal tt, setError (Some (JString msg)) st).
Proof.
  intros H. unfold handleSubmit.
  destruct (JsString.truthy (JsString.trim (studentName st))) eqn:En; cbn [negb].
  - destruct (JsString.truthy (JsString.trim (examId st))) eqn:Ee; cbn [negb].
    + destruct (List.length (uploadedFiles st) =? 0)%nat eqn:Ef.
      * exists (lit "Please upload at least one file").
        split; [simpl; tauto | reflexivity].
      * exfalso. destruct H as [H | [H | H]].
        -- rewrite H in En. discriminate En.
        -- rewrite H in Ee. discriminate Ee.
        -- rewrite H in Ef. discriminate Ef.
    + exists (lit "Exam ID is required"). split; [simpl; tauto | reflexivity].
  - exists (lit "Student name is required"). split; [simpl; tauto | reflexivity].
Qed.

Lemma isFormValid_false (st : State) :
  isFormValid st = false ->
  JsString.trim (studentName st) = [] \/
  JsString.trim (examId st) = [] \/
  uploadedFiles st = [].
Proof.
  unfold isFormValid. intros H.
  destruct (JsString.truthy (JsString.trim (studentName st))) eqn:En.
  - destruct (JsString.truthy (JsString.trim (examId st))) eqn:Ee.
    + right; right. destruct (uploadedFiles st); [reflexivity | discriminate H].
    + right; left. now apply truthy_false_iff.
  - left. now apply truthy_false_iff.
Qed.

(** C3: when the trimmed student name is empty, the trimmed exam id is
    empty, or no file has been added, [handleSubmit] returns at once: it
    only sets one of the three validation messages, the [uploading] flag
    is not touched, and nothing is sent, whatever the service. *)
Theorem handleSubmit_validation (svc : ApiService) (st : State) :
  JsString.trim (studentName st) = [] \/
  JsString.trim (examId st) = [] \/
  uploadedFiles st = [] ->
  exists msg : jsstring,
    In msg [lit "Student name is required"; lit "Exam ID is required";
            lit "Please upload at least one file"] /\
    handleSubmit svc st = Ret (Normal tt, setError (Some (JString msg)) st) /\
    uploading (setError (Some (JString msg)) st) = uploading st /\
    forall (srv : Server) (sigma : remote srv),
      trace_of (run srv (handleSubmit svc st) sigma) = [] /\
      remote_after (run srv (handleSubmit svc st) sigma) = sigma.
Proof.
  intros H. destruct (handleSubmit_invalid svc st H) as (msg & Hin & Heq).
  exists msg. rewrite Heq. repeat split. exact Hin.
Qed.

Lemma handleSubmit_validation_witness :
  exists msg : jsstring,
    In msg [lit "Student name is required"; lit "Exam ID is required";
            lit "Please upload at least one file"] /\
    handleSubmit Sample.svc initialState =
      Ret (Normal tt, setError (Some (JString msg)) initialState) /\
    uploading (setError (Some (JString msg)) initialState) = uploading initialState /\
    forall (srv : Server) (sigma : remote srv),
      trace_of (run srv (handleSubmit Sample.svc initialState) sigma) = [] /\
      remote_after (run srv (handleSubmit Sample.svc initialState) sigma) = sigma.
Proof.
  apply (handleSubmit_validation Sample.svc initialState).
  left. reflexivity.
Defined.

(** ** The runs of a valid submission *)

(** The shape of [handleSubmit] on a valid form: the upload is awaited
    first; its rejection ends the run, its fulfilment leads to the
    processing request for the returned id, and only then to the timer. *)
Lemma handleSubmit_valid (svc : ApiService) (st : State) :
  isFormValid st = true ->
  exists k,
    handleSubmit svc st = Await SUploadResponse (submit_request svc st) k /\
    (forall e, k (Rejected e) = Ret (Normal tt, upload_failed e st)) /\
    (forall r, exists k',
       k (Fulfilled r) =
         Await SProcessingResponse
           (processAnswerSheet_request svc (upload_id (data r))) k' /\
       (forall e, k' (Rejected e) = Ret (Normal tt, processing_failed e st)) /\
       (forall r', k' (Fulfilled r') =
          SetTimeout (Navigate (lit "/results/" ++ upload_id (data r))) 2000
            (Ret (Normal tt, evaluated st)))).
Proof.
  intros Hv. apply isFormValid_true in Hv. destruct Hv as (Hn & He & Hf).
  unfold handleSubmit. rewrite Hn, He, Hf. cbn [negb].
  eexists. split; [reflexivity|]. split.
  - intros e. reflexivity.
  - intros r. eexists. split; [reflexivity|]. split.
    + intros e. reflexivity.
    + intros r'. reflexivity.
Qed.

Lemma handleSubmit_run (svc : ApiService) (srv : Server) (st : State) (sigma : remote srv) :
  isFormValid st = true ->
  let a1 := serve srv sigma SUploadResponse (submit_request svc st) in
  run srv (handleSubmit svc st) sigma =
  match snd a1 with
  | Rejected e =>
      ((Normal tt, upload_failed e st), fst a1,
       [Sent SUploadResponse (submit_request svc st)])
  | Fulfilled r =>
      let preq := processAnswerSheet_request svc (upload_id (data r)) in
      let a2 := serve srv (fst a1) SProcessingResponse preq in
      match snd a2 with
      | Rejected e =>
          ((Normal tt, processing_failed e st), fst a2,
           [Sent SUploadResponse (submit_request svc st);
            Sent SProcessingResponse preq])
      | Fulfilled _ =>
          ((Normal tt, evaluated st), fst a2,
           [Sent SUploadResponse (submit_request svc st);
            Sent SProcessingResponse preq;
            Timer (Navigate (lit "/results/" ++ upload_id (data r))) 2000])
      end
  end.
Proof.
  intros Hv a1.
  destruct (handleSubmit_valid svc st Hv) as (k & Hk & Hrej & Hful).
  rewrite Hk. cbn [run]. fold a1.
  destruct (snd a1) as [r|e].
  - destruct (Hful r) as (k' & Hk' & Hrej' & Hful').
    rewrite Hk'. cbn [run]. cbv zeta.
    destruct (snd (serve srv (fst a1) SProcessingResponse
                     (processAnswerSheet_request svc (upload_id (data r))))) as [r'|e].
    + rewrite Hful'. reflexivity.
    + rewrite Hrej'. reflexivity.
  - rewrite Hrej. reflexivity.
Qed.

(** ** C4: upload, then processing of the returned id *)

(** C4: on a form that passes validation the handler first awaits the
    upload; only the continuation of a fulfilled upload issues the
    processing request, it does so at once (its next suspension point is
    that request) and for the [upload_id] of the response; a rejected
    upload issues nothing more. Against any service the first two
    requests of such a run are the upload and the processing of that id,
    in this order. *)
Theorem submit_then_process (svc : ApiService) (st : State) :
  isFormValid st = true ->
  exists k,
    handleSubmit svc st = Await SUploadResponse (submit_request svc st) k /\
    (forall e, exists c, k (Rejected e) = Ret c) /\
    (forall r, exists k',
       k (Fulfilled r) =
         Await SProcessingResponse
           (processAnswerSheet_request svc (upload_id (data r))) k') /\
    (forall (srv : Server) (sigma : remote srv) r,
       snd (serve srv sigma SUploadResponse (submit_request svc st)) = Fulfilled r ->
       firstn 2 (trace_of (run srv (handleSubmit svc st) sigma)) =
         [Sent SUploadResponse (submit_request svc st);
          Sent SProcessingResponse
            (processAnswerSheet_request svc (upload_id (data r)))] /\
       requests (trace_of (run srv (handleSubmit svc st) sigma)) =
         [submit_request svc st;
          processAnswerSheet_request svc (upload_id (data r))]).
Proof.
  intros Hv. destruct (handleSubmit_valid svc st Hv) as (k & Hk & Hrej & Hful).
  exists k. split; [exact Hk|]. split; [|split].
  - intros e. eexists. apply Hrej.
  - intros r. destruct (Hful r) as (k' & Hk' & _). exists k'. exact Hk'.
  - intros srv sigma r Hr. rewrite (handleSubmit_run svc srv st sigma Hv).
    cbv zeta. rewrite Hr.
    destruct (snd (serve srv _ SProcessingResponse _)); split; reflexivity.
Qed.

Lemma submit_then_process_witness :
  exists k,
    handleSubmit Sample.svc Sample.filled =
      Await SUploadResponse (submit_request Sample.svc Sample.filled) k /\
    (forall e, exists c, k (Rejected e) = Ret c) /\
    (forall r, exists k',
       k (Fulfilled r) =
         Await SProcessingResponse
           (processAnswerSheet_request Sample.svc (upload_id (data r))) k') /\
    (forall (srv : Server) (sigma : remote srv) r,
       snd (serve srv sigma SUploadResponse (submit_request Sample.svc Sample.filled))
         = Fulfilled r ->
       firstn 2 (trace_of (run srv (handleSubmit Sample.svc Sample.filled) sigma)) =
         [Sent SUploadResponse (submit_request Sample.svc Sample.filled);
          Sent SProcessingResponse
            (processAnswerSheet_request Sample.svc (upload_id (data r)))] /\
       requests (trace_of (run srv (handleSubmit Sample.svc Sample.filled) sigma)) =
         [submit_request Sample.svc Sample.filled;
          processAnswerSheet_request Sample.svc (upload_id (data r))]).
Proof.
  apply (submit_then_process Sample.svc Sample.filled). reflexivity.
Defined.

(** ** C6, C9, C10: how a submission ends *)

Ltac run_valid Hv :=
  unfold submitted;
  rewrite (handleSubmit_run _ _ _ _ Hv); cbv zeta.

Lemma error_message_cases (e : Thrown) :
  (forall d, response_data_detail e = Some d -> ToBoolean d = true ->
             error_message e = d) /\
  (forall m, no_detail e -> present (message e) m -> error_message e = JString m) /\
  (no_detail e -> absent (message e) ->
   error_message e = JString (lit "Upload failed")).
Proof.
  unfold error_message, no_detail, present, absent. split; [|split].
  - intros d Hd Ht. rewrite Hd. cbn [value_or]. rewrite Ht.
    cbn [value_or_lit]. now rewrite Ht.
  - intros m Hno [Hm Hne].
    destruct m as [|c m]; [now contradiction Hne|]. rewrite Hm.
    destruct (response_data_detail e) as [d|]; [|reflexivity].
    cbn [value_or]. now rewrite (Hno d eq_refl).
  - intros Hno Hm.
    destruct (response_data_detail e) as [d|].
    + cbn [value_or]. rewrite (Hno d eq_refl).
      destruct Hm as [Hm|Hm]; rewrite Hm; reflexivity.
    + destruct Hm as [Hm|Hm]; rewrite Hm; reflexivity.
Qed.

(** With a [detail] that is a string, or falsy, or not there, the
    message is a string, and not the empty one. *)
Lemma error_message_string (e : Thrown) :
  (forall d, response_data_detail e = Some d -> ToBoolean d = true ->
             exists s, d = JString s) ->
  exists s, error_message e = JString s /\ s <> [].
Proof.
  intros Hstr. pose proof (error_message_truthy e) as Ht.
  unfold error_message in *.
  destruct (response_data_detail e) as [d|] eqn:Ed.
  - cbn [value_or] in *. destruct (ToBoolean d) eqn:Td.
    + destruct (Hstr d eq_refl Td) as (s & ->).
      cbn [value_or_lit] in *. rewrite Td in *. exists s. split; [reflexivity|].
      now apply truthy_true_iff.
    + destruct (message e) as [m|]; cbn [option_map value_or_lit] in *.
      * destruct (ToBoolean (JString m)) eqn:Tm.
        -- exists m. split; [reflexivity | now apply truthy_true_iff].
        -- eexists. split; [reflexivity | discriminate].
      * eexists. split; [reflexivity | discriminate].
  - cbn [value_or] in *. destruct (message e) as [m|]; cbn [option_map value_or_lit] in *.
    + destruct (ToBoolean (JString m)) eqn:Tm.
      * exists m. split; [reflexivity | now apply truthy_true_iff].
      * eexists. split; [reflexivity | discriminate].
    + eexists. split; [reflexivity | discriminate].
Qed.

(** After a submission both flags are down: on a valid form the
    [finally] block lowers them, on an invalid one they are left as they
    were. *)
Lemma submitted_flags (svc : ApiService) (srv : Server) (st : State) (sigma : remote srv) :
  isFormValid st = true \/ (uploading st = false /\ processing st = false) ->
  uploading (submitted svc srv st sigma) = false /\
  processing (submitted svc srv st sigma) = false.
Proof.
  intros H. destruct (isFormValid st) eqn:Hv.
  - run_valid Hv.
    destruct (snd (serve srv sigma SUploadResponse _)) as [r|e]; [|now split].
    destruct (snd (serve srv _ SProcessingResponse _)); now split.
  - destruct H as [H | [Hu Hp]]; [discriminate H|].
    destruct (handleSubmit_invalid svc st (isFormValid_false st Hv)) as (msg & _ & Heq).
    unfold submitted. rewrite Heq. now split.
Qed.

(** [handleSubmit] never writes the list of files. *)
Lemma submitted_uploadedFiles (svc : ApiService) (srv : Server) (st : State)
    (sigma : remote srv) :
  uploadedFiles (submitted svc srv st sigma) = uploadedFiles st.
Proof.
  destruct (isFormValid st) eqn:Hv.
  - run_valid Hv.
    destruct (snd (serve srv sigma SUploadResponse _)) as [r|e]; [|reflexivity].
    destruct (snd (serve srv _ SProcessingResponse _)); reflexivity.
  - destruct (handleSubmit_invalid svc st (isFormValid_false st Hv)) as (msg & _ & Heq).
    unfold submitted. rewrite Heq. reflexivity.
Qed.

(** When the upload or the processing request of a valid submission is
    rejected with [e], the run ends with both flags down and [error] set
    to what the catch clause draws from [e]: the [detail] of the
    response body when it is truthy, whatever its type; otherwise the
    message of [e] when there is a non-empty one; otherwise 'Upload
    failed'. That value is truthy, and it is a non-empty string unless
    the [detail] is a truthy value that is not a string. *)
Lemma rejection_sets_error (svc : ApiService) (srv : Server) (st : State)
    (sigma : remote srv) (e : Thrown) :
  isFormValid st = true ->
  let a1 := serve srv sigma SUploadResponse (submit_request svc st) in
  (snd a1 = Rejected e \/
   exists r, snd a1 = Fulfilled r /\
     snd (serve srv (fst a1) SProcessingResponse
            (processAnswerSheet_request svc (upload_id (data r)))) = Rejected e) ->
  let st' := submitted svc srv st sigma in
  error st' = Some (error_message e) /\
  ToBoolean (error_message e) = true /\
  uploading st' = false /\ processing st' = false /\
  (forall d, response_data_detail e = Some d -> ToBoolean d = true ->
             error_message e = d) /\
  (forall m, no_detail e -> present (message e) m -> error_message e = JString m) /\
  (no_detail e -> absent (message e) ->
   error_message e = JString (lit "Upload failed")) /\
  ((forall d, response_data_detail e = Some d -> ToBoolean d = true ->
              exists s, d = JString s) ->
   exists s, error_message e = JString s /\ s <> []).
Proof.
  intros Hv a1 Hfail st'.
  assert (Herr : error st' = Some (error_message e)).
  { subst st'. run_valid Hv. fold a1.
    destruct Hfail as [H | (r & H & H')].
    - rewrite H. reflexivity.
    - rewrite H, H'. reflexivity. }
  destruct (submitted_flags svc srv st sigma (or_introl Hv)) as [Hu Hp].
  destruct (error_message_cases e) as (H1 & H2 & H3).
  repeat split; auto using error_message_truthy, error_message_string.
Qed.

Lemma rejection_sets_error_witness :
  let st' := submitted Sample.svc (Sample.server false) Sample.filled 0%nat in
  error st' = Some (JString (lit "Evaluation failed")) /\
  uploading st' = false /\ processing st' = false.
Proof.
  assert (Hv : isFormValid Sample.filled = true) by reflexivity.
  destruct (rejection_sets_error Sample.svc (Sample.server false) Sample.filled 0%nat
              Sample.evaluationFailed Hv) as (H1 & _ & H3 & H4 & _).
  - right. exists {| data := Sample.uploadResponse; status := 200 |}.
    split; reflexivity.
  - cbv zeta. repeat split; assumption.
Defined.

(** C6, at a rejection the handler can meet: the service answers the
    upload of a valid form with a 422 whose [detail] is an array of
    objects. The catch clause takes the [detail] because it is truthy:
    [error] then holds that array, not a string, although the error
    carries the message 'Request failed with status code 422'; the
    array is rendered as the child of the alert, and its elements are
    objects, which React does not render. *)
Theorem failure_detail_not_a_message :
  let st' := submitted Sample.svc validating Sample.filled tt in
  isFormValid Sample.filled = true /\
  snd (serve validating tt SUploadResponse (submit_request Sample.svc Sample.filled))
    = Rejected unprocessable /\
  error st' = response_data_detail unprocessable /\
  (forall s : jsstring, error st' <> Some (JString s)) /\
  (exists v, error st' = Some v /\ ToBoolean v = true /\ isReactChild v = false) /\
  message unprocessable = Some (lit "Request failed with status code 422") /\
  uploading st' = false /\ processing st' = false.
Proof.
  cbv zeta. split; [reflexivity|]. split; [reflexivity|].
  split; [reflexivity|]. split; [|split].
  - intros s H. vm_compute in H. discriminate H.
  - eexists. split; [reflexivity|]. split; reflexivity.
  - repeat split.
Qed.

(** C9: once [handleSubmit] has completed, [uploading] and [processing]
    are both false: after a submission that passed validation whatever
    the outcome of the two requests, and after a validation failure of a
    handler invoked with both flags down (the submit button is disabled
    while either is up). *)
Theorem handleSubmit_clears_flags (svc : ApiService) (srv : Server) (st : State)
    (sigma : remote srv) :
  isFormValid st = true \/ (uploading st = false /\ processing st = false) ->
  uploading (submitted svc srv st sigma) = false /\
  processing (submitted svc srv st sigma) = false.
Proof.
  apply submitted_flags.
Qed.

Lemma handleSubmit_clears_flags_witness :
  (uploading (submitted Sample.svc (Sample.server true) initialState 0%nat) = false /\
   processing (submitted Sample.svc (Sample.server true) initialState 0%nat) = false) /\
  (uploading (submitted Sample.svc (Sample.server false) Sample.filled 0%nat) = false /\
   processing (submitted Sample.svc (Sample.server false) Sample.filled 0%nat) = false).
Proof.
  split.
  - apply (handleSubmit_clears_flags Sample.svc (Sample.server true) initialState 0%nat).
    right. split; reflexivity.
  - apply (handleSubmit_clears_flags Sample.svc (Sample.server false) Sample.filled 0%nat).
    left. reflexivity.
Defined.



(** ** C7: the two fetches are reads *)

(** C7: [getEvaluationResults] and [getBatchEvaluationResults] each send
    one GET request and nothing else, and return the body of its
    response; called again on a remote state that the first call left
    unchanged, each returns what it returned the first time. *)
Theorem fetch_idempotent (svc : ApiService) (srv : Server) (sigma : remote srv)
    (id batchId : jsstring) :
  let first := run srv (getEvaluationResults svc id tt) sigma in
  let again := run srv (getEvaluationResults svc id tt) (remote_after first) in
  let bfirst := run srv (getBatchEvaluationResults svc batchId tt) sigma in
  let bagain := run srv (getBatchEvaluationResults svc batchId tt) (remote_after bfirst) in
  (trace_of first = [Sent SEvaluationResults (getEvaluationResults_request svc id)] /\
   req_method (getEvaluationResults_request svc id) = GET /\
   (remote_after first = sigma -> result_of again = result_of first)) /\
  (trace_of bfirst = [Sent SBatchResults (getBatchEvaluationResults_request svc batchId)] /\
   req_method (getBatchEvaluationResults_request svc batchId) = GET /\
   (remote_after bfirst = sigma -> result_of bagain = result_of bfirst)).
Proof.
  cbv zeta. unfold getEvaluationResults, getBatchEvaluationResults.
  rewrite (await_data_run srv unit SEvaluationResults).
  rewrite (await_data_run srv unit SBatchResults).
  unfold trace_of, remote_after. cbn [fst snd].
  split; (split; [reflexivity | split; [reflexivity|]]).
  - intros H. rewrite H. rewrite (await_data_run srv unit SEvaluationResults).
    reflexivity.
  - intros H. rewrite H. rewrite (await_data_run srv unit SBatchResults).
    reflexivity.
Qed.

Lemma fetch_idempotent_witness :
  result_of (run (Sample.server true) (getEvaluationResults Sample.svc (lit "abc123") tt)
               (remote_after (run (Sample.server true)
                                (getEvaluationResults Sample.svc (lit "abc123") tt) 0%nat)))
  = result_of (run (Sample.server true)
                 (getEvaluationResults Sample.svc (lit "abc123") tt) 0%nat)
  /\
  result_of (run (Sample.server true) (getBatchEvaluationResults Sample.svc (lit "batch-1") tt)
               (remote_after (run (Sample.server true)
                                (getBatchEvaluationResults Sample.svc (lit "batch-1") tt) 0%nat)))
  = result_of (run (Sample.server true)
                 (getBatchEvaluationResults Sample.svc (lit "batch-1") tt) 0%nat).
Proof.
  destruct (fetch_idempotent Sample.svc (Sample.server true) 0%nat
              (lit "abc123") (lit "batch-1")) as [(_ & _ & H1) (_ & _ & H2)].
  split; [apply H1 | apply H2]; reflexivity.
Defined.

(** ** C8: the size limit of the drop zone *)

Lemma maxSize_value : maxSize dropzoneOptions = (50 * 1024 * 1024)%N.
Proof. reflexivity. Qed.

Lemma fileMatchSize_le (f : File) (lo hi : N) :
  fileMatchSize f lo hi = true -> (file_size f <= hi)%N.
Proof.
  unfold fileMatchSize. intros H. apply andb_true_iff in H. destruct H as [H _].
  apply negb_true_iff, N.ltb_ge in H. exact H.
Qed.

Lemma acceptedFiles_le (br : Browser) (opts : DropzoneOptions) (dropped : list File) :
  Forall (fun f => (file_size f <= maxSize opts)%N) (acceptedFiles br opts dropped).
Proof.
  unfold acceptedFiles. apply Forall_forall. intros f Hin.
  apply filter_In in Hin. destruct Hin as [_ H].
  apply andb_true_iff in H. destruct H as [_ H].
  exact (fileMatchSize_le f 0 (maxSize opts) H).
Qed.

Lemma filter_index_Forall {A : Type} (P : A -> Prop) (keep : nat -> bool) (l : list A) :
  Forall P l -> forall i, Forall P (filter_index keep i l).
Proof.
  induction 1 as [|x l Hx Hl IH]; intros i; simpl.
  - constructor.
  - destruct (keep i); [constructor; [exact Hx|] |]; apply IH.
Qed.

Lemma onDrop_within_limit (br : Browser) (dropped : list File) (st : State) :
  within_limit st ->
  within_limit (onDrop br (acceptedFiles br dropzoneOptions dropped) st).
Proof.
  unfold within_limit, onDrop. cbn [uploadedFiles setError setUploadedFiles].
  intros H. apply Forall_app. split; [exact H|].
  apply Forall_map. cbn [file].
  exact (acceptedFiles_le br dropzoneOptions dropped).
Qed.

Lemma removeFile_within_limit (index : nat) (st : State) :
  within_limit st -> within_limit (removeFile index st).
Proof.
  unfold within_limit, removeFile. cbn [uploadedFiles setUploadedFiles].
  intros H. now apply filter_index_Forall.
Qed.

Lemma ui_step_within_limit (br : Browser) (svc : ApiService) (srv : Server)
    (c : State * remote srv) (ev : ui_event) :
  within_limit (fst c) -> within_limit (fst (ui_step br svc srv c ev)).
Proof.
  destruct c as [st sigma]. cbn [fst]. intros H.
  destruct ev as [v | v | v | dropped | index | |]; cbn [ui_step fst];
    try (destruct (busy st); exact H); try exact H.
  - now apply onDrop_within_limit.
  - destruct (busy st); [exact H | now apply removeFile_within_limit].
  - destruct (negb (isFormValid st) || busy st); cbn [fst]; [exact H|].
    unfold within_limit.
    change (snd (result_of (run srv (handleSubmit svc st) sigma)))
      with (submitted svc srv st sigma).
    rewrite submitted_uploadedFiles. exact H.
Qed.

Lemma ui_fold_within_limit (br : Browser) (svc : ApiService) (srv : Server)
    (evs : list ui_event) :
  forall c : State * remote srv,
    within_limit (fst c) -> within_limit (fst (fold_left (ui_step br svc srv) evs c)).
Proof.
  induction evs as [|ev evs IH]; intros c H; simpl.
  - exact H.
  - apply IH. now apply ui_step_within_limit.
Qed.

Lemma form_files_upload (files : list File) (name exam : jsstring) (paper : option jsstring) :
  form_files (uploadAnswerSheet_form files name exam paper) = files.
Proof.
  unfold uploadAnswerSheet_form, form_files.
  rewrite !flat_map_app. cbn [flat_map snd app].
  replace (flat_map _ (match js_or paper None with Some p => _ | None => [] end))
    with (@nil File) by (destruct (js_or paper None); reflexivity).
  rewrite !app_nil_r. induction files as [|f l IH]; simpl; [reflexivity | now rewrite IH].
Qed.

(** C8: the drop zone is configured with [maxSize] 50 * 1024 * 1024 and
    hands [onDrop] only files of at most that size, so whatever the user
    does (typing, dropping, deleting, submitting, closing the alert)
    every file of the form has at most 50 MiB, and so has every file of
    the upload request the form would send. *)
Theorem files_within_limit (br : Browser) (svc : ApiService) (srv : Server)
    (sigma : remote srv) (evs : list ui_event) :
  let st := fst (ui_run br svc srv sigma evs) in
  maxSize dropzoneOptions = (50 * 1024 * 1024)%N /\
  Forall (fun uf => (file_size (file uf) <= 50 * 1024 * 1024)%N) (uploadedFiles st) /\
  forall fd, req_data (submit_request svc st) = Some fd ->
    Forall (fun f => (file_size f <= 50 * 1024 * 1024)%N) (form_files fd).
Proof.
  cbv zeta.
  assert (H : within_limit (fst (ui_run br svc srv sigma evs))).
  { apply ui_fold_within_limit. constructor. }
  split; [reflexivity|]. split; [exact H|].
  intros fd Hfd. cbn in Hfd. inversion Hfd; subst fd; clear Hfd.
  rewrite form_files_upload. apply Forall_map. exact H.
Qed.

(** The user never finds the page busy: between two events both flags
    are down, which is the state [handleSubmit] is invoked in. *)
Lemma ui_idle (br : Browser) (svc : ApiService) (srv : Server) (evs : list ui_event) :
  forall c : State * remote srv,
    busy (fst c) = false ->
    busy (fst (fold_left (ui_step br svc srv) evs c)) = false.
Proof.
  induction evs as [|ev evs IH]; intros [st sigma] H; simpl; [exact H|].
  apply IH. cbn [fst] in H.
  destruct ev as [v | v | v | dropped | index | |]; cbn [fst]; rewrite ?H;
    try exact H.
  rewrite orb_false_r.
  destruct (isFormValid st) eqn:Hv; cbn [negb fst]; [|exact H].
  change (snd (result_of (run srv (handleSubmit svc st) sigma)))
    with (submitted svc srv st sigma).
  destruct (submitted_flags svc srv st sigma (or_introl Hv)) as [Hu Hp].
  unfold busy. now rewrite Hu, Hp.
Qed.

(** ** C5: the invariants of the batch statistics *)

Lemma length_successes (os : list Spec.BatchOutcome) :
  List.length (Spec.successes os) = List.length (filter Spec.isSuccess os).
Proof.
  induction os as [|o os IH]; [reflexivity|].
  unfold Spec.successes, Spec.isSuccess in *. simpl.
  destruct (Spec.outcome o); simpl; now rewrite IH.
Qed.

Lemma success_error_partition (os : list Spec.BatchOutcome) :
  (List.length (filter Spec.isSuccess os) + List.length (filter Spec.isError os)
   = List.length os)%nat.
Proof.
  induction os as [|o os IH]; [reflexivity|].
  unfold Spec.isSuccess, Spec.isError in *. simpl.
  destruct (Spec.outcome o); simpl; lia.
Qed.

Lemma sumQ_bounds (l : list Q) :
  Forall (fun q => 0 <= q /\ q <= 100) l ->
  0 <= Spec.sumQ l /\ Spec.sumQ l <= 100 * inject_Z (Z.of_nat (List.length l)).
Proof.
  induction 1 as [|q l [Hlo Hhi] _ [IHlo IHhi]].
  - split; [apply Qle_refl | discriminate].
  - cbn [Spec.sumQ fold_right List.length]. fold (Spec.sumQ l).
    rewrite Nat2Z.inj_succ. unfold Z.succ. rewrite inject_Z_plus.
    change (inject_Z 1) with 1. split; lra.
Qed.

Lemma inject_nat_pos (n : nat) : (0 < n)%nat -> 0 < inject_Z (Z.of_nat n).
Proof.
  intros H. change 0 with (inject_Z 0). rewrite <- Zlt_Qlt. lia.
Qed.

(** C5: for the statistics derived from any outcome set, successes and
    failures add up to the total; the average is 0 when nothing
    succeeded and otherwise the mean of the percentages of the
    successful outcomes, failures left out; and it lies between 0 and
    100 when the successful results are well formed, that is, when each
    of their percentages does. *)
Theorem batchStatistics_invariants (os : list Spec.BatchOutcome) :
  let s := Spec.batchStatistics os in
  (Spec.successCount s + Spec.failureCount s = Spec.totalCount s)%nat /\
  Spec.successCount s = List.length (Spec.successes os) /\
  (Spec.successCount s = 0%nat -> Spec.averagePercentage s = 0) /\
  ((0 < Spec.successCount s)%nat ->
   Spec.averagePercentage s == Spec.mean (map Spec.percentage (Spec.successes os))) /\
  (Forall Spec.wf_result (Spec.successes os) ->
   0 <= Spec.averagePercentage s /\ Spec.averagePercentage s <= 100).
Proof.
  cbv zeta. unfold Spec.batchStatistics.
  cbn [Spec.successCount Spec.failureCount Spec.totalCount Spec.averagePercentage].
  pose proof (length_successes os) as Hlen.
  split; [apply success_error_partition|].
  split; [symmetry; exact Hlen|].
  split; [intros H0; rewrite H0; reflexivity|].
  split.
  - intros Hpos. destruct (List.length (filter Spec.isSuccess os) =? 0)%nat eqn:E.
    + apply Nat.eqb_eq in E. lia.
    + unfold Spec.mean. rewrite length_map, Hlen. reflexivity.
  - intros Hwf. destruct (List.length (filter Spec.isSuccess os) =? 0)%nat eqn:E.
    + split; lra.
    + apply Nat.eqb_neq in E.
      assert (Hn : 0 < inject_Z (Z.of_nat (List.length (filter Spec.isSuccess os))))
        by (apply inject_nat_pos; lia).
      assert (Hb : Forall (fun q => 0 <= q /\ q <= 100)
                     (map Spec.percentage (Spec.successes os))).
      { apply Forall_map. exact Hwf. }
      apply sumQ_bounds in Hb. rewrite length_map, Hlen in Hb. destruct Hb as [Hlo Hhi].
      split.
      * apply Qle_shift_div_l; [exact Hn | lra].
      * apply Qle_shift_div_r; [exact Hn | exact Hhi].
Qed.

Lemma batchStatistics_invariants_witness :
  let s := Spec.batchStatistics [Sample.alice; Sample.bob] in
  Spec.averagePercentage s == 90 /\
  0 <= Spec.averagePercentage s /\ Spec.averagePercentage s <= 100.
Proof.
  destruct (batchStatistics_invariants [Sample.alice; Sample.bob])
    as (_ & _ & _ & Hmean & Hrange).
  cbv zeta. split.
  - rewrite Hmean; [reflexivity | simpl; lia].
  - apply Hrange. repeat constructor; unfold Qle; simpl; lia.
Defined.

Lemma files_within_limit_witness :
  let st := fst (ui_run Sample.browser Sample.svc (Sample.server true) 0%nat
                   [DropFiles [Sample.oversized_pdf; Sample.answers_pdf];
                    TypeStudentName (lit "Alice"); TypeExamId (lit "MID-2024");
                    ClickSubmit]) in
  Forall (fun f => (file_size f <= 50 * 1024 * 1024)%N)
    (form_files (uploadAnswerSheet_form (map file (uploadedFiles st))
                   (JsString.trim (studentName st)) (JsString.trim (examId st))
                   (js_or (Some (JsString.trim (paperNumber st))) None))).
Proof.
  cbv zeta.
  apply (files_within_limit Sample.browser Sample.svc (Sample.server true) 0%nat
           [DropFiles [Sample.oversized_pdf; Sample.answers_pdf];
            TypeStudentName (lit "Alice"); TypeExamId (lit "MID-2024");
            ClickSubmit]).
  reflexivity.
Defined.

(** * Further properties of the page and of the client *)

(** ** Validation and the submit button *)

(** X1: [handleSubmit] sends a request exactly when the form satisfies
    [isFormValid], the condition that enables the submit button: the
    three checks of the handler and the guard of the button agree, and
    the paper number plays no part in either. *)
Theorem request_sent_iff_form_valid (svc : ApiService) (srv : Server) (st : State)
    (sigma : remote srv) :
  requests (trace_of (run srv (handleSubmit svc st) sigma)) <> [] <->
  isFormValid st = true.
Proof.
  destruct (isFormValid st) eqn:Hv.
  - split; [reflexivity | intros _].
    rewrite (handleSubmit_run svc srv st sigma Hv). cbv zeta.
    destruct (snd (serve srv sigma SUploadResponse _)) as [r|e]; [|discriminate].
    destruct (snd (serve srv _ SProcessingResponse _)); discriminate.
  - destruct (handleSubmit_invalid svc st (isFormValid_false st Hv)) as (msg & _ & Heq).
    rewrite Heq. split; [intros H; now contradiction H | discriminate].
Qed.

(** X2: the three checks are made in order and the first that fails
    names the message: a blank name wins over everything, a blank exam
    id over a missing file. *)
Theorem validation_message_priority (svc : ApiService) (st : State) :
  (JsString.trim (studentName st) = [] ->
   handleSubmit svc st =
     Ret (Normal tt, setError (Some (JString (lit "Student name is required"))) st)) /\
  (JsString.trim (studentName st) <> [] -> JsString.trim (examId st) = [] ->
   handleSubmit svc st =
     Ret (Normal tt, setError (Some (JString (lit "Exam ID is required"))) st)) /\
  (JsString.trim (studentName st) <> [] -> JsString.trim (examId st) <> [] ->
   uploadedFiles st = [] ->
   handleSubmit svc st =
     Ret (Normal tt, setError (Some (JString (lit "Please upload at least one file"))) st)).
Proof.
  unfold handleSubmit. repeat split.
  - intros Hn. rewrite Hn. reflexivity.
  - intros Hn He. apply truthy_true_iff in Hn. rewrite Hn, He. reflexivity.
  - intros Hn He Hf. apply truthy_true_iff in Hn. apply truthy_true_iff in He.
    rewrite Hn, He, Hf. reflexivity.
Qed.

Lemma validation_message_priority_witness :
  handleSubmit Sample.svc initialState =
    Ret (Normal tt, setError (Some (JString (lit "Student name is required"))) initialState) /\
  handleSubmit Sample.svc (setStudentName (lit "Alice") initialState) =
    Ret (Normal tt, setError (Some (JString (lit "Exam ID is required")))
                      (setStudentName (lit "Alice") initialState)) /\
  handleSubmit Sample.svc (setExamId (lit "MID-2024") (setStudentName (lit "Alice") initialState)) =
    Ret (Normal tt, setError (Some (JString (lit "Please upload at least one file")))
                      (setExamId (lit "MID-2024") (setStudentName (lit "Alice") initialState))).
Proof.
  split; [|split].
  - apply (proj1 (validation_message_priority Sample.svc initialState)). reflexivity.
  - apply (proj1 (proj2 (validation_message_priority Sample.svc
                           (setStudentName (lit "Alice") initialState)))).
    + discriminate.
    + reflexivity.
  - apply (proj2 (proj2 (validation_message_priority Sample.svc
                           (setExamId (lit "MID-2024")
                              (setStudentName (lit "Alice") initialState))))).
    + discriminate.
    + discriminate.
    + reflexivity.
Defined.

(** ** What a submission writes and what it leaves *)

(** X3: whatever happens, [handleSubmit] leaves the form as it was: the
    name, the exam id, the paper number and the list of files are the
    same after the run, also after a successful evaluation. *)
Theorem handleSubmit_keeps_form (svc : ApiService) (srv : Server) (st : State)
    (sigma : remote srv) :
  let st' := submitted svc srv st sigma in
  studentName st' = studentName st /\
  examId st' = examId st /\
  paperNumber st' = paperNumber st /\
  uploadedFiles st' = uploadedFiles st.
Proof.
  cbv zeta. destruct (isFormValid st) eqn:Hv.
  - run_valid Hv.
    destruct (snd (serve srv sigma SUploadResponse _)) as [r|e]; [|now repeat split].
    destruct (snd (serve srv _ SProcessingResponse _)); now repeat split.
  - destruct (handleSubmit_invalid svc st (isFormValid_false st Hv)) as (msg & _ & Heq).
    unfold submitted. rewrite Heq. now repeat split.
Qed.

(** X4: when both requests of a valid submission are fulfilled, the run
    sends the upload, then the processing of the returned id, then arms
    one timer of 2000 ms that navigates to the results of that id; it
    ends with the message 'Evaluation completed successfully!', no
    error (an earlier one is cleared) and both flags down. *)
Theorem evaluation_success_run (svc : ApiService) (srv : Server) (st : State)
    (sigma : remote srv) (r : AxiosResponse (data_of SUploadResponse))
    (r' : AxiosResponse (data_of SProcessingResponse)) :
  isFormValid st = true ->
  let a1 := serve srv sigma SUploadResponse (submit_request svc st) in
  let preq := processAnswerSheet_request svc (upload_id (data r)) in
  snd a1 = Fulfilled r ->
  snd (serve srv (fst a1) SProcessingResponse preq) = Fulfilled r' ->
  let out := run srv (handleSubmit svc st) sigma in
  trace_of out =
    [Sent SUploadResponse (submit_request svc st);
     Sent SProcessingResponse preq;
     Timer (Navigate (lit "/results/" ++ upload_id (data r))) 2000] /\
  fst (result_of out) = Normal tt /\
  success (snd (result_of out)) = Some (lit "Evaluation completed successfully!") /\
  error (snd (result_of out)) = None /\
  uploading (snd (result_of out)) = false /\
  processing (snd (result_of out)) = false.
Proof.
  intros Hv a1 preq H1 H2 out. subst out.
  rewrite (handleSubmit_run svc srv st sigma Hv). cbv zeta. fold a1. rewrite H1.
  fold preq. rewrite H2. now repeat split.
Qed.

Lemma evaluation_success_run_witness :
  let out := run (Sample.server true) (handleSubmit Sample.svc Sample.filled) 0%nat in
  timers (trace_of out) = [(Navigate (lit "/results/abc123"), 2000%N)] /\
  success (snd (result_of out)) = Some (lit "Evaluation completed successfully!").
Proof.
  assert (Hv : isFormValid Sample.filled = true) by reflexivity.
  destruct (evaluation_success_run Sample.svc (Sample.server true) Sample.filled 0%nat
              {| data := Sample.uploadResponse; status := 200 |}
              {| data := Sample.processingResponse; status := 200 |}
              Hv eq_refl eq_refl) as (Ht & _ & Hs & _).
  cbv zeta. split; [rewrite Ht; reflexivity | exact Hs].
Defined.

(** X5: a timer is armed only by a fully successful submission: if a
    run of [handleSubmit] arms one, the form was valid, both requests
    were fulfilled, and the timer is the 2000 ms navigation to the
    results of the uploaded id. After a validation failure or a rejected
    request the page never navigates. *)
Theorem navigation_only_after_success (svc : ApiService) (srv : Server) (st : State)
    (sigma : remote srv) (cb : Callback) (d : N) :
  In (Timer cb d) (trace_of (run srv (handleSubmit svc st) sigma)) ->
  isFormValid st = true /\
  let a1 := serve srv sigma SUploadResponse (submit_request svc st) in
  exists r r',
    snd a1 = Fulfilled r /\
    snd (serve srv (fst a1) SProcessingResponse
           (processAnswerSheet_request svc (upload_id (data r)))) = Fulfilled r' /\
    cb = Navigate (lit "/results/" ++ upload_id (data r)) /\ d = 2000%N.
Proof.
  destruct (isFormValid st) eqn:Hv.
  - rewrite (handleSubmit_run svc srv st sigma Hv). cbv zeta.
    destruct (snd (serve srv sigma SUploadResponse _)) as [r|e] eqn:E1.
    + destruct (snd (serve srv _ SProcessingResponse _)) as [r'|e] eqn:E2.
      * intros [H | [H | [H | []]]]; try discriminate H.
        inversion H; subst cb d. split; [reflexivity|].
        exists r, r'. now repeat split.
      * intros [H | [H | []]]; discriminate H.
    + intros [H | []]; discriminate H.
  - destruct (handleSubmit_invalid svc st (isFormValid_false st Hv)) as (msg & _ & Heq).
    rewrite Heq. intros [].
Qed.

Lemma navigation_only_after_success_witness :
  isFormValid Sample.filled = true /\
  exists r r',
    snd (serve (Sample.server true) 0%nat SUploadResponse
           (submit_request Sample.svc Sample.filled)) = Fulfilled r /\
    snd (serve (Sample.server true)
           (fst (serve (Sample.server true) 0%nat SUploadResponse
                   (submit_request Sample.svc Sample.filled)))
           SProcessingResponse
           (processAnswerSheet_request Sample.svc (upload_id (data r)))) = Fulfilled r' /\
    Navigate (lit "/results/abc123") = Navigate (lit "/results/" ++ upload_id (data r)) /\
    2000%N = 2000%N.
Proof.
  apply (navigation_only_after_success Sample.svc (Sample.server true) Sample.filled 0%nat
           (Navigate (lit "/results/abc123")) 2000%N).
  vm_compute. right. right. left. reflexivity.
Defined.

(** X6: when the upload of a valid submission is rejected, the run stops
    there: the upload is the only request (no processing request is
    sent), no timer is armed, and [success] is empty, a message left by
    an earlier run having been cleared before the upload. *)
Theorem upload_failure_stops (svc : ApiService) (srv : Server) (st : State)
    (sigma : remote srv) (e : Thrown) :
  isFormValid st = true ->
  let a1 := serve srv sigma SUploadResponse (submit_request svc st) in
  snd a1 = Rejected e ->
  let out := run srv (handleSubmit svc st) sigma in
  trace_of out = [Sent SUploadResponse (submit_request svc st)] /\
  remote_after out = fst a1 /\
  fst (result_of out) = Normal tt /\
  success (snd (result_of out)) = None.
Proof.
  intros Hv a1 H1 out. subst out.
  rewrite (handleSubmit_run svc srv st sigma Hv). cbv zeta. fold a1. rewrite H1.
  now repeat split.
Qed.

Lemma upload_failure_stops_witness :
  let out := run unreachable (handleSubmit Sample.svc Sample.filled) tt in
  requests (trace_of out) = [submit_request Sample.svc Sample.filled] /\
  success (snd (result_of out)) = None /\
  error (snd (result_of out)) = Some (JString (lit "Network Error")).
Proof.
  assert (Hv : isFormValid Sample.filled = true) by reflexivity.
  destruct (upload_failure_stops Sample.svc unreachable Sample.filled tt networkError
              Hv eq_refl) as (Ht & _ & _ & Hs).
  cbv zeta. split; [rewrite Ht; reflexivity | split; [exact Hs | reflexivity]].
Defined.

(** ** What the upload request carries *)

(** X7: the upload request of the page is a POST to
    '/upload/answer-sheet' whose form holds the files of the list in
    order, then the trimmed name and the trimmed exam id, and the paper
    number only when its trimmed value is not empty (the 'Auto-detect'
    choice and a blank value send no such field). The form stores each
    string as a USVString: a surrogate that stands alone in a field is
    replaced by U+FFFD, and a field without surrogate code units is
    stored exactly as trimmed. *)
Theorem submitted_form_is_trimmed (svc : ApiService) (st : State) :
  req_method (submit_request svc st) = POST /\
  req_url (submit_request svc st) = lit "/upload/answer-sheet" /\
  req_data (submit_request svc st) =
    Some (map (fun uf => (lit "files", FileValue (file uf))) (uploadedFiles st)
          ++ [(lit "student_name",
               StringValue (toUSVString (JsString.trim (studentName st))));
              (lit "exam_id",
               StringValue (toUSVString (JsString.trim (examId st))))]
          ++ match JsString.trim (paperNumber st) with
             | [] => []
             | c :: p => [(lit "paper_number", StringValue (toUSVString (c :: p)))]
             end) /\
  (forallb isScalarValue (studentName st) = true ->
   toUSVString (JsString.trim (studentName st)) = JsString.trim (studentName st)) /\
  (forallb isScalarValue (examId st) = true ->
   toUSVString (JsString.trim (examId st)) = JsString.trim (examId st)) /\
  (forallb isScalarValue (paperNumber st) = true ->
   toUSVString (JsString.trim (paperNumber st)) = JsString.trim (paperNumber st)).
Proof.
  split; [reflexivity|]. split; [reflexivity|]. split.
  - unfold submit_request, uploadAnswerSheet_request, dispatch, uploadAnswerSheet_form.
    cbn [req_data]. rewrite map_map.
    destruct (JsString.trim (paperNumber st)) as [|c p]; reflexivity.
  - repeat split; intros H; apply toUSVString_scalar, forallb_trim, H.
Qed.

Lemma submitted_form_is_trimmed_witness :
  toUSVString (JsString.trim (studentName Sample.filled)) = lit "Alice" /\
  toUSVString (JsString.trim (examId Sample.filled)) = lit "MID-2024".
Proof.
  destruct (submitted_form_is_trimmed Sample.svc Sample.filled)
    as (_ & _ & _ & Hn & He & _).
  split; [rewrite Hn | rewrite He]; reflexivity.
Defined.

(** ** The list of files *)

Lemma filter_index_keep_all {A : Type} (keep : nat -> bool) (l : list A) :
  forall k, (forall j, (k <= j)%nat -> keep j = true) -> filter_index keep k l = l.
Proof.
  induction l as [|x l IH]; intros k H; simpl; [reflexivity|].
  rewrite (H k (Nat.le_refl k)). f_equal. apply IH. intros j Hj. apply H. lia.
Qed.

Lemma filter_index_ext {A : Type} (keep keep' : nat -> bool) (l : list A) :
  (forall j, keep j = keep' j) ->
  forall k, filter_index keep k l = filter_index keep' k l.
Proof.
  intros H. induction l as [|x l IH]; intros k; simpl; [reflexivity|].
  now rewrite H, IH.
Qed.

Lemma filter_index_remove {A : Type} (l : list A) :
  forall k i,
    filter_index (fun j => negb (j =? k + i)%nat) k l = firstn i l ++ skipn (S i) l.
Proof.
  induction l as [|x l IH]; intros k i.
  - simpl. now rewrite firstn_nil.
  - cbn [filter_index]. destruct i as [|i].
    + rewrite Nat.add_0_r, Nat.eqb_refl. cbn [negb firstn skipn app].
      apply filter_index_keep_all. intros j Hj.
      apply negb_true_iff, Nat.eqb_neq. lia.
    + replace (k =? k + S i)%nat with false
        by (symmetry; apply Nat.eqb_neq; lia).
      cbn [negb].
      change (firstn (S i) (x :: l)) with (x :: firstn i l).
      change (skipn (S (S i)) (x :: l)) with (skipn (S i) l).
      cbn [app]. f_equal. rewrite <- (IH (S k) i).
      apply filter_index_ext. intros j.
      now replace (k + S i)%nat with (S k + i)%nat by lia.
Qed.

(** X8: [removeFile index] takes out the file at position [index] and
    keeps the others in order; an index past the end removes nothing;
    nothing but the list of files is written: the seven other cells of
    the state are as they were. *)
Theorem removeFile_spec (index : nat) (st : State) :
  uploadedFiles (removeFile index st) =
    firstn index (uploadedFiles st) ++ skipn (S index) (uploadedFiles st) /\
  ((index < List.length (uploadedFiles st))%nat ->
   S (List.length (uploadedFiles (removeFile index st))) = List.length (uploadedFiles st)) /\
  ((List.length (uploadedFiles st) <= index)%nat ->
   removeFile index st = st) /\
  studentName (removeFile index st) = studentName st /\
  examId (removeFile index st) = examId st /\
  paperNumber (removeFile index st) = paperNumber st /\
  uploading (removeFile index st) = uploading st /\
  processing (removeFile index st) = processing st /\
  error (removeFile index st) = error st /\
  success (removeFile index st) = success st.
Proof.
  assert (H : uploadedFiles (removeFile index st) =
              firstn index (uploadedFiles st) ++ skipn (S index) (uploadedFiles st)).
  { unfold removeFile. cbn [uploadedFiles setUploadedFiles].
    exact (filter_index_remove (uploadedFiles st) 0 index). }
  split; [exact H|]. split; [|split].
  - intros Hlt. rewrite H, length_app, length_firstn, length_skipn. lia.
  - intros Hge. destruct st as [fs n e p u pr er su].
    unfold removeFile, setUploadedFiles. cbn in *. f_equal.
    etransitivity; [exact (filter_index_remove fs 0 index)|].
    rewrite firstn_all2 by exact Hge. rewrite skipn_all2 by lia. apply app_nil_r.
  - now repeat split.
Qed.

Lemma removeFile_spec_witness :
  S (List.length (uploadedFiles (removeFile 0 Sample.filled)))
    = List.length (uploadedFiles Sample.filled) /\
  removeFile 1 Sample.filled = Sample.filled.
Proof.
  destruct (removeFile_spec 0 Sample.filled) as (_ & Hlt & _).
  destruct (removeFile_spec 1 Sample.filled) as (_ & _ & Hge & _).
  split; [apply Hlt | apply Hge]; simpl; lia.
Defined.

(** X9: [onDrop] appends the accepted files after the files already in
    the list, in the order given, and clears the error; the entries
    that were there are kept as they are, and a drop of nothing changes
    only the error. *)
Theorem onDrop_appends (br : Browser) (accepted : list File) (st : State) :
  let st' := onDrop br accepted st in
  map file (uploadedFiles st') = map file (uploadedFiles st) ++ accepted /\
  firstn (List.length (uploadedFiles st)) (uploadedFiles st') = uploadedFiles st /\
  List.length (uploadedFiles st') =
    (List.length (uploadedFiles st) + List.length accepted)%nat /\
  error st' = None /\
  (accepted = [] -> st' = setError None st) /\
  success st' = success st /\ studentName st' = studentName st /\
  examId st' = examId st /\ paperNumber st' = paperNumber st.
Proof.
  cbv zeta. unfold onDrop.
  cbn [uploadedFiles setError setUploadedFiles error success studentName examId paperNumber].
  split; [|split; [|split; [|split; [|split]]]].
  - rewrite map_app, map_map. cbn [file]. now rewrite map_id.
  - rewrite firstn_app, Nat.sub_diag, firstn_all. cbn [firstn]. apply app_nil_r.
  - now rewrite length_app, length_map.
  - reflexivity.
  - intros ->. destruct st. unfold setError, setUploadedFiles. cbn.
    now rewrite app_nil_r.
  - now repeat split.
Qed.

Lemma onDrop_appends_witness :
  onDrop Sample.browser [] Sample.filled = setError None Sample.filled.
Proof.
  destruct (onDrop_appends Sample.browser [] Sample.filled) as (_ & _ & _ & _ & H & _).
  apply H. reflexivity.
Defined.

(** X10: dropping one file and deleting the entry it was given (the
    last of the list) gives back the list of files as it was. *)
Theorem drop_then_delete (br : Browser) (f : File) (st : State) :
  uploadedFiles (removeFile (List.length (uploadedFiles st)) (onDrop br [f] st))
  = uploadedFiles st.
Proof.
  unfold removeFile, onDrop.
  cbn [uploadedFiles setError setUploadedFiles map].
  rewrite (filter_index_remove _ 0 (List.length (uploadedFiles st))).
  rewrite firstn_app, Nat.sub_diag, firstn_all. cbn [firstn]. rewrite app_nil_r.
  rewrite skipn_all2 by (rewrite length_app; simpl; lia).
  apply app_nil_r.
Qed.

(** ** Previews and chips *)

Lemma ui_files_invariant (P : UploadedFile -> Prop) (br : Browser) (svc : ApiService)
    (srv : Server) :
  (forall f, P {| file := f;
                  preview := if JsString.startsWith (file_type f) (lit "image/")
                             then Some (createObjectURL br f) else None |}) ->
  forall (evs : list ui_event) (c : State * remote srv),
    Forall P (uploadedFiles (fst c)) ->
    Forall P (uploadedFiles (fst (fold_left (ui_step br svc srv) evs c))).
Proof.
  intros HP. induction evs as [|ev evs IH]; intros [st sigma] H; simpl; [exact H|].
  apply IH. cbn [fst] in H.
  destruct ev as [v | v | v | dropped | index | |]; cbn [fst];
    try (destruct (busy st); exact H); try exact H.
  - unfold onDrop. cbn [uploadedFiles setError setUploadedFiles].
    apply Forall_app. split; [exact H|]. apply Forall_map, Forall_forall.
    intros f _. apply HP.
  - destruct (busy st); [exact H|].
    unfold removeFile. cbn [uploadedFiles setUploadedFiles].
    now apply filter_index_Forall.
  - destruct (negb (isFormValid st) || busy st); cbn [fst]; [exact H|].
    change (snd (result_of (run srv (handleSubmit svc st) sigma)))
      with (submitted svc srv st sigma).
    rewrite submitted_uploadedFiles. exact H.
Qed.

(** X11: whatever the user does, every file of the list has a preview
    exactly when its type starts with 'image/', which is exactly when
    its chip reads 'Image'; every other file, whatever its type, has no
    preview and a chip that reads 'PDF'. *)
Theorem preview_iff_image (br : Browser) (svc : ApiService) (srv : Server)
    (sigma : remote srv) (evs : list ui_event) :
  Forall (fun uf =>
            preview_matches_type uf /\
            (chipLabel uf = lit "Image" <-> preview uf <> None) /\
            (chipLabel uf = lit "PDF" <-> preview uf = None))
         (uploadedFiles (fst (ui_run br svc srv sigma evs))).
Proof.
  unfold ui_run. apply ui_files_invariant; [|constructor].
  intros f. unfold preview_matches_type, chipLabel. cbn [file preview].
  destruct (JsString.startsWith (file_type f) (lit "image/")).
  - repeat split; intros; try reflexivity; try discriminate.
  - repeat split; intros; try reflexivity; try discriminate;
      try (exfalso; match goal with H : None <> None |- _ => now apply H end).
Qed.

(** ** The requests of a submission *)

(** X12: a submission is never retried: the requests of a run of
    [handleSubmit] are none, or the upload alone, or the upload followed
    by one processing request for the id the upload returned; a rejected
    request is not sent again. *)
Theorem handleSubmit_no_retry (svc : ApiService) (srv : Server) (st : State)
    (sigma : remote srv) :
  let t := requests (trace_of (run srv (handleSubmit svc st) sigma)) in
  (List.length t <= 2)%nat /\
  (t = [] \/
   t = [submit_request svc st] \/
   exists r, snd (serve srv sigma SUploadResponse (submit_request svc st)) = Fulfilled r /\
             t = [submit_request svc st;
                  processAnswerSheet_request svc (upload_id (data r))]).
Proof.
  cbv zeta. destruct (isFormValid st) eqn:Hv.
  - rewrite (handleSubmit_run svc srv st sigma Hv). cbv zeta.
    destruct (snd (serve srv sigma SUploadResponse _)) as [r|e] eqn:E1.
    + destruct (snd (serve srv _ SProcessingResponse _)); (split; [simpl; lia|]);
        right; right; exists r; now split.
    + split; [simpl; lia|]. right; left. reflexivity.
  - destruct (handleSubmit_invalid svc st (isFormValid_false st Hv)) as (msg & _ & Heq).
    rewrite Heq. split; [simpl; lia | now left].
Qed.

(** ** The base URL *)

(** X13: the base URL falls back to 'http://localhost:8000' when
    REACT_APP_API_URL is unset or empty and is the variable otherwise;
    every request of the instance is sent relative to that URL followed
    by '/api/v1', while [healthCheck] goes outside the instance: to the
    absolute URL ending in '/health', with no base URL and with no
    timeout. *)
Theorem base_url_resolution (env : option jsstring) (files : list File)
    (name exam id : jsstring) (paper : option jsstring) :
  (env = None \/ env = Some [] -> API_BASE_URL env = lit "http://localhost:8000") /\
  (forall c u, env = Some (c :: u) -> API_BASE_URL env = c :: u) /\
  req_baseURL (uploadAnswerSheet_request (apiService env) files name exam paper)
    = Some (API_BASE_URL env ++ lit "/api/v1") /\
  req_baseURL (processAnswerSheet_request (apiService env) id)
    = Some (API_BASE_URL env ++ lit "/api/v1") /\
  req_baseURL (getEvaluationResults_request (apiService env) id)
    = Some (API_BASE_URL env ++ lit "/api/v1") /\
  req_baseURL (healthCheck_request env) = None /\
  req_url (healthCheck_request env) = API_BASE_URL env ++ lit "/health" /\
  req_timeout (healthCheck_request env) = 0%N.
Proof.
  split; [|split].
  - intros [-> | ->]; reflexivity.
  - intros c u ->. reflexivity.
  - repeat split.
Qed.

Lemma base_url_resolution_witness :
  API_BASE_URL (Some []) = lit "http://localhost:8000" /\
  API_BASE_URL (Some (lit "https://proctoriq.example")) = lit "https://proctoriq.example".
Proof.
  split.
  - apply (proj1 (base_url_resolution (Some []) [] [] [] [] None)). right. reflexivity.
  - apply (proj1 (proj2 (base_url_resolution (Some (lit "https://proctoriq.example"))
                           [] [] [] [] None))
             104%N (lit "ttps://proctoriq.example")).
    reflexivity.
Defined.

(** ** The navigation bar *)

Lemma jsstring_eqb_eq (a b : jsstring) : JsString.eqb a b = true <-> a = b.
Proof.
  unfold JsString.eqb. destruct (list_eq_dec N.eq_dec a b); split; intro H;
    try assumption; try reflexivity; try discriminate; now contradiction.
Qed.

Ltac decide_paths :=
  repeat match goal with
         | |- context [JsString.eqb ?p ?q] =>
             let E := fresh "E" in destruct (JsString.eqb p q) eqn:E
         end;
  repeat match goal with
         | H : JsString.eqb _ _ = true |- _ => apply jsstring_eqb_eq in H
         end.

(** X14: for any location at most one button of the bar is highlighted,
    and exactly the one whose path equals the location when there is
    one. The comparison is an equality, not a prefix test: on the page
    '/results/<id>', where a successful submission navigates, every
    button, 'Results' included, keeps the transparent background. *)
Theorem navbar_active_item (pathname : jsstring) :
  (List.length (filter (isActive pathname) navItems) <= 1)%nat /\
  (forall item, In item navItems -> path item = pathname ->
                filter (isActive pathname) navItems = [item]) /\
  (forall id item, In item navItems ->
                   backgroundColor (lit "/results/" ++ id) item = lit "transparent").
Proof.
  split; [|split].
  - unfold navItems, isActive. cbn [filter path]. decide_paths; cbn [List.length];
      try lia; subst; exfalso;
      repeat match goal with
             | H : lit _ = lit _ |- _ => vm_compute in H; try discriminate H; clear H
             end.
  - intros item Hin Hp. subst pathname.
    cbn [navItems In] in Hin.
    destruct Hin as [<- | [<- | [<- | [<- | [<- | []]]]]]; reflexivity.
  - intros id item Hin. unfold backgroundColor, isActive.
    cbn [navItems In] in Hin.
    destruct Hin as [<- | [<- | [<- | [<- | [<- | []]]]]]; cbn [path];
      decide_paths; try reflexivity; exfalso;
      match goal with H : _ = lit _ |- _ => vm_compute in H; discriminate H end.
Qed.

Lemma navbar_active_item_witness :
  filter (isActive (lit "/upload")) navItems = [ {| label := lit "Upload"; path := lit "/upload" |} ].
Proof.
  apply (proj1 (proj2 (navbar_active_item (lit "/upload")))).
  - right. left. reflexivity.
  - reflexivity.
Defined.

(** ** The form of [uploadAnswerSheet] *)

(** X15: the form [uploadAnswerSheet] builds holds the files it is
    given, in order, under 'files', then the name and the exam id (the
    method trims nothing), and a 'paper_number' field exactly when the
    paper number is a non-empty string: an undefined or empty one adds
    no field. Each string is stored as a USVString, so a surrogate that
    stands alone becomes U+FFFD; a string without surrogate code units
    is stored as given. *)
Theorem upload_form_layout (files : list File) (name exam : jsstring)
    (paper : option jsstring) :
  let fd := uploadAnswerSheet_form files name exam paper in
  form_files fd = files /\
  firstn (List.length files) fd = map (fun f => (lit "files", FileValue f)) files /\
  nth_error fd (List.length files)
    = Some (lit "student_name", StringValue (toUSVString name)) /\
  nth_error fd (S (List.length files))
    = Some (lit "exam_id", StringValue (toUSVString exam)) /\
  (forall v, In (lit "paper_number", v) fd <->
             exists p, paper = Some p /\ p <> [] /\ v = StringValue (toUSVString p)) /\
  List.length fd =
    (List.length files + 2 + match paper with
                             | Some (_ :: _) => 1
                             | _ => 0
                             end)%nat /\
  (forallb isScalarValue name = true ->
   nth_error fd (List.length files) = Some (lit "student_name", StringValue name)) /\
  (forallb isScalarValue exam = true ->
   nth_error fd (S (List.length files)) = Some (lit "exam_id", StringValue exam)).
Proof.
  cbv zeta. split; [apply form_files_upload|].
  unfold uploadAnswerSheet_form.
  set (head := map (fun f => (lit "files", FileValue f)) files).
  assert (Hlen : List.length head = List.length files) by apply length_map.
  assert (Hname : nth_error (head ++ [(lit "student_name", StringValue (toUSVString name));
                                      (lit "exam_id", StringValue (toUSVString exam))]
                             ++ match js_or paper None with
                                | Some p => [(lit "paper_number", StringValue (toUSVString p))]
                                | None => []
                                end) (List.length files)
                  = Some (lit "student_name", StringValue (toUSVString name))).
  { rewrite <- Hlen, nth_error_app2, Nat.sub_diag by lia. reflexivity. }
  assert (Hexam : nth_error (head ++ [(lit "student_name", StringValue (toUSVString name));
                                      (lit "exam_id", StringValue (toUSVString exam))]
                             ++ match js_or paper None with
                                | Some p => [(lit "paper_number", StringValue (toUSVString p))]
                                | None => []
                                end) (S (List.length files))
                  = Some (lit "exam_id", StringValue (toUSVString exam))).
  { rewrite <- Hlen, nth_error_app2 by lia.
    replace (S (List.length head) - List.length head)%nat with 1%nat by lia. reflexivity. }
  split; [|split; [exact Hname|split; [exact Hexam|split; [|split; [|split]]]]].
  - rewrite <- Hlen, firstn_app, Nat.sub_diag, firstn_all. cbn [firstn]. apply app_nil_r.
  - intros v. rewrite !in_app_iff. split.
    + intros [H | [H | H]].
      * subst head. apply in_map_iff in H. destruct H as (f & H & _).
        vm_compute in H. discriminate H.
      * destruct H as [H | [H | []]]; apply (f_equal fst) in H;
          vm_compute in H; discriminate H.
      * destruct paper as [[|c p]|]; cbn [js_or JsString.truthy] in H;
          try contradiction.
        destruct H as [H | []]. inversion H; subst v.
        exists (c :: p). repeat split. discriminate.
    + intros (p & -> & Hp & ->). right; right.
      destruct p as [|c p]; [now contradiction Hp|]. left. reflexivity.
  - rewrite !length_app, Hlen. destruct paper as [[|c p]|]; cbn; lia.
  - intros H. rewrite Hname. now rewrite (toUSVString_scalar name H).
  - intros H. rewrite Hexam. now rewrite (toUSVString_scalar exam H).
Qed.

Lemma upload_form_layout_witness :
  In (lit "paper_number", StringValue (lit "2"))
     (uploadAnswerSheet_form [Sample.answers_pdf] (lit "Alice") (lit "MID-2024")
        (Some (lit "2"))) /\
  nth_error (uploadAnswerSheet_form [Sample.answers_pdf] (lit "Alice") (lit "MID-2024")
               (Some (lit "2"))) 1
    = Some (lit "student_name", StringValue (lit "Alice")).
Proof.
  destruct (upload_form_layout [Sample.answers_pdf] (lit "Alice") (lit "MID-2024")
              (Some (lit "2"))) as (_ & _ & _ & _ & Hp & _ & Hn & _).
  split.
  - apply (proj2 (Hp (StringValue (lit "2")))).
    exists (lit "2"). repeat split. discriminate.
  - apply Hn. reflexivity.
Defined.

(** ** Blank fields *)

(** X16: the submit button is disabled, and [handleSubmit] refuses,
    exactly when the name or the exam id is blank (empty or made of
    white space only) or no file is in the list. *)
Theorem form_invalid_iff_blank (st : State) :
  isFormValid st = false <->
  forallb JsString.isWhiteSpace (studentName st) = true \/
  forallb JsString.isWhiteSpace (examId st) = true \/
  uploadedFiles st = [].
Proof.
  rewrite <- !trim_nil_iff. split.
  - apply isFormValid_false.
  - intros H. destruct (isFormValid st) eqn:Hv; [|reflexivity].
    apply isFormValid_true in Hv. destruct Hv as (Hn & He & Hf).
    destruct H as [H | [H | H]].
    + rewrite H in Hn. discriminate Hn.
    + rewrite H in He. discriminate He.
    + rewrite H in Hf. discriminate Hf.
Qed.
